(** * Hospital Management System backend: model of [server.js]

    The Express handlers of [server.js] are embedded as computations in a
    small monad that threads the state of the external services (the
    Supabase tables and auth accounts), lists the calls made to them, and
    has the two ways a handler body is left early:
    a thrown error (caught by the handler's [catch], which answers 500) and
    an early [return res.status(..).json(..)].

    What the external services answer is not decided by this program: a
    record of the answers that may go wrong (an error in the reply, a
    rejected promise, the identifiers the database generates) is an input
    of every handler, and the theorems quantify over it.  Logging to the
    console is left out.

    POST /api/appointments, POST /api/public/book and POST /api/patients
    run in that monad; the read-only routes (the three lists and
    GET /api/dashboard/stats) are functions of the backend. *)

From Stdlib Require Import ZArith List String Ascii Bool Lia.
From Stdlib Require Import Permutation Sorted RelationClasses.
Import ListNotations.

Local Open Scope string_scope.
Local Open Scope Z_scope.

(* ================================================================== *)
(** ** JavaScript values read from the request body *)
(* ================================================================== *)

(** [req.body.password] is whatever JSON the caller sent. *)
Inductive jsvalue : Type :=
| JSundefined
| JSnull
| JSbool (b : bool)
| JSnumber (n : Z)
| JSstring (s : string).

(** ToBoolean. *)
Definition truthy (v : jsvalue) : bool :=
  match v with
  | JSundefined | JSnull => false
  | JSbool b => b
  | JSnumber n => negb (n =? 0)
  | JSstring s => negb (String.eqb s "")
  end.

(** A string of the request body is held as the bytes of its UTF-8 form,
    the form it has in the body and in a string literal of this file.  The
    [length] of a JavaScript string is its number of UTF-16 code units: one
    for every character that takes one, two or three bytes, two (a surrogate
    pair) for every character that takes four.  So each byte adds the code
    units of the character it starts, and a continuation byte adds none. *)
Definition utf16_units (c : ascii) : nat :=
  let n := nat_of_ascii c in
  if Nat.ltb n 128 then 1%nat         (* one byte *)
  else if Nat.ltb n 192 then 0%nat    (* continuation byte *)
  else if Nat.ltb n 240 then 1%nat    (* first of two or three bytes *)
  else 2%nat.                         (* first of four bytes *)

Fixpoint utf16_length (s : string) : nat :=
  match s with
  | EmptyString => 0%nat
  | String c s' => (utf16_units c + utf16_length s')%nat
  end.

(** [v.length]: a number for a string, [undefined] for a boolean or a
    number.  (On [undefined] and [null] the property access throws, but the
    only use below is guarded by [!password ||].) *)
Definition js_length (v : jsvalue) : option Z :=
  match v with
  | JSstring s => Some (Z.of_nat (utf16_length s))
  | _ => None
  end.

(** [x < n] where [x] may be [undefined]: the comparison with NaN is false. *)
Definition js_lt (x : option Z) (n : Z) : bool :=
  match x with
  | Some k => k <? n
  | None => false
  end.

(** [!password || password.length < 6] *)
Definition password_rejected (password : jsvalue) : bool :=
  negb (truthy password) || js_lt (js_length password) 6.

(** [count || 0] on a count that is a number or [null]. *)
Definition or_zero (count : option Z) : Z :=
  match count with
  | Some n => if n =? 0 then 0 else n
  | None => 0
  end.

(* ================================================================== *)
(** ** Dates *)
(* ================================================================== *)

(** A [Date] object holds a time value in milliseconds since the epoch, or
    NaN ("Invalid Date"), here [None]. *)
Definition Date : Type := option Z.

(** TimeClip: time values beyond 8.64e15 ms are invalid. *)
Definition TimeClip (t : Z) : Date :=
  if Z.abs t <=? 8640000000000000 then Some t else None.

(** [new Date(d.getTime() + k)]: NaN stays NaN. *)
Definition Date_offset (d : Date) (k : Z) : Date :=
  match d with
  | Some t => TimeClip (t + k)
  | None => None
  end.

(** Days between 1970-01-01 and the civil date [y]-[m]-[d] (proleptic
    Gregorian calendar), and back. *)
Definition days_from_civil (y m d : Z) : Z :=
  let y' := if m <=? 2 then y - 1 else y in
  let era := y' / 400 in
  let yoe := y' - era * 400 in
  let doy := (153 * (if 2 <? m then m - 3 else m + 9) + 2) / 5 + d - 1 in
  let doe := yoe * 365 + yoe / 4 - yoe / 100 + doy in
  era * 146097 + doe - 719468.

Definition civil_from_days (z0 : Z) : Z * Z * Z :=
  let z := z0 + 719468 in
  let era := z / 146097 in
  let doe := z - era * 146097 in
  let yoe := (doe - doe / 1460 + doe / 36524 - doe / 146096) / 365 in
  let y := yoe + era * 400 in
  let doy := doe - (365 * yoe + yoe / 4 - yoe / 100) in
  let mp := (5 * doy + 2) / 153 in
  let d := doy - (153 * mp + 2) / 5 + 1 in
  let m := if mp <? 10 then mp + 3 else mp - 9 in
  (if m <=? 2 then y + 1 else y, m, d).

Definition ms_per_day : Z := 86400000.

Definition digit_char (n : Z) : ascii := ascii_of_nat (Z.to_nat (48 + n mod 10)).

(** [n] written with exactly [w] decimal digits (zero padded). *)
Fixpoint pad_digits (w : nat) (n : Z) : string :=
  match w with
  | O => ""
  | S w' => pad_digits w' (n / 10) ++ String (digit_char n) ""
  end.

(** [new Date(t).toISOString().split('T')[0]]: the UTC calendar date of
    [t]; years outside 0..9999 are written with a sign and six digits. *)
Definition iso_date_part (t : Z) : string :=
  let '(y, m, d) := civil_from_days (t / ms_per_day) in
  let year :=
    if (0 <=? y) && (y <=? 9999) then pad_digits 4 y
    else (if y <? 0 then "-" else "+") ++ pad_digits 6 (Z.abs y) in
  year ++ "-" ++ pad_digits 2 m ++ "-" ++ pad_digits 2 d.

(** *** The ISO date-time forms of [Date.parse]

    [Date.parse] is the platform's.  The handlers below take it as a
    parameter; this is its behaviour on the two forms the scenarios use,
    [YYYY-MM-DD] and [YYYY-MM-DDTHH:MM:SSZ], both read as UTC. *)
Definition digit_val (c : ascii) : option Z :=
  let n := Z.of_nat (nat_of_ascii c) in
  if (48 <=? n) && (n <=? 57) then Some (n - 48) else None.

Fixpoint number_of (cs : list ascii) (acc : Z) : option Z :=
  match cs with
  | [] => Some acc
  | c :: cs' =>
      match digit_val c with
      | Some k => number_of cs' (10 * acc + k)
      | None => None
      end
  end.

Definition is_leap (y : Z) : bool :=
  ((y mod 4 =? 0) && negb (y mod 100 =? 0)) || (y mod 400 =? 0).

Definition days_in_month (y m : Z) : Z :=
  if m =? 2 then (if is_leap y then 29 else 28)
  else if (m =? 4) || (m =? 6) || (m =? 9) || (m =? 11) then 30
  else 31.

Definition make_time (y mo d h mi s : Z) : option Z :=
  if (1 <=? mo) && (mo <=? 12) && (1 <=? d) && (d <=? days_in_month y mo)
     && (h <=? 23) && (mi <=? 59) && (s <=? 59)
  then Some ((((days_from_civil y mo d * 24 + h) * 60 + mi) * 60 + s) * 1000)
  else None.

Definition parse_fields (y mo d h mi s : list ascii) : option Z :=
  match number_of y 0, number_of mo 0, number_of d 0,
        number_of h 0, number_of mi 0, number_of s 0 with
  | Some y', Some mo', Some d', Some h', Some mi', Some s' =>
      make_time y' mo' d' h' mi' s'
  | _, _, _, _, _, _ => None
  end.

Definition iso_utc_parse (str : string) : option Z :=
  match list_ascii_of_string str with
  | [y1; y2; y3; y4; "-"; m1; m2; "-"; d1; d2]%char =>
      parse_fields [y1; y2; y3; y4] [m1; m2] [d1; d2] [] [] []
  | [y1; y2; y3; y4; "-"; m1; m2; "-"; d1; d2; "T";
     h1; h2; ":"; i1; i2; ":"; s1; s2; "Z"]%char =>
      parse_fields [y1; y2; y3; y4] [m1; m2] [d1; d2] [h1; h2] [i1; i2] [s1; s2]
  | _ => None
  end.

(* ================================================================== *)
(** ** Data model: the rows held by the external services *)
(* ================================================================== *)

(** Columns the routes neither read nor write ([created_at]) are left out. *)

Record patient : Type := mk_patient {
  p_id : Z;
  p_name : string;
  p_age : Z;
  p_condition : string;
  p_status : string;
  p_contact_number : string;
  p_email : string }.

Record doctor : Type := mk_doctor {
  d_id : Z;
  d_name : string;
  d_specialty : string }.

(** [appointment_date] is kept as the string the handler hands to the
    insert; the backend's range filters read it as a timestamp. *)
Record appointment : Type := mk_appointment {
  a_id : Z;
  a_patient_id : Z;
  a_doctor_name : string;
  a_appointment_date : string;
  a_reason : string }.

Record auth_user : Type := mk_auth_user {
  u_id : Z;
  u_email : string;
  u_password : jsvalue;
  u_email_confirm : bool;
  u_role : string;
  u_name : string }.

Record backend : Type := mk_backend {
  patients : list patient;
  doctors : list doctor;
  appointments : list appointment;
  auth_users : list auth_user }.

Definition empty_backend : backend :=
  {| patients := []; doctors := []; appointments := []; auth_users := [] |}.

(** The argument of [resend.emails.send]. *)
Record email : Type := mk_email {
  m_from : string;
  m_to : string;
  m_subject : string;
  m_html : string }.

(** *** Requests and responses *)

(** Body of POST /api/appointments. *)
Record appointment_request : Type := mk_appointment_request {
  ar_patient_id : Z;
  ar_doctor_name : string;
  ar_appointment_date : string;
  ar_reason : string;
  ar_patient_email : string }.

(** Body of POST /api/public/book. *)
Record booking_request : Type := mk_booking_request {
  bk_name : string;
  bk_email : string;
  bk_age : Z;
  bk_condition : string;
  bk_contact_number : string;
  bk_doctor_name : string;
  bk_doctor_specialty : string;
  bk_appointment_date : string;
  bk_reason : string;
  bk_password : jsvalue }.

Inductive body : Type :=
| ErrorBody (error : string)                      (* { error } *)
| AppointmentBody (a : appointment)               (* the created row *)
| BookedBody (success : bool) (a : appointment)   (* { success, appointment } *)
| StatsBody (totalPatients totalDoctors totalAppointments appointmentsToday : Z).

Record response : Type := mk_response {
  status : Z;
  json : body }.

(* ================================================================== *)
(** ** The external services as seen by one request *)
(* ================================================================== *)

(** A call to a service client goes wrong in one of two ways: the promise
    resolves to [{ data: null, error }], or the promise rejects. *)
Inductive fault : Type :=
| RepliesError (message : string)
| Rejects (message : string).

(** What the services answer during one request, and the process
    environment. *)
Record env : Type := mk_env {
  RESEND_API_KEY : bool;
  conflict_fault : option fault;
  search_fault : option fault;
  auth_fault : option fault;
  patient_fault : option fault;
  appointment_fault : option fault;
  email_fault : option fault;
  generated_user_id : Z;
  generated_patient_id : Z;
  generated_appointment_id : Z }.

Inductive call : Type :=
| SelectConflicts (doctor_name : string) (gte lte : Z)
| SelectPatient (contact_number : string)
| CreateUser (u : auth_user)
| InsertPatient (row : patient)
| InsertAppointment (row : appointment)
| EmailsSend (m : email).

(** A call that was made, and whether it succeeded. *)
Record event : Type := mk_event {
  ev_call : call;
  ev_ok : bool }.

(* ================================================================== *)
(** ** The handler monad *)
(* ================================================================== *)

Inductive result (A : Type) : Type :=
| Val (a : A)
| Thrown (message : string)      (* throw err *)
| Returned (r : response).       (* return res.status(..).json(..) *)

Arguments Val {A} a.
Arguments Thrown {A} message.
Arguments Returned {A} r.

(** A computation reads the services' answers, transforms the backend and
    lists the calls it made, in order. *)
Definition M (A : Type) : Type := env -> backend -> result A * backend * list event.

Definition ret {A : Type} (a : A) : M A := fun _ b => (Val a, b, []).

Definition bind {A B : Type} (m : M A) (k : A -> M B) : M B :=
  fun e b =>
    match m e b with
    | (Val a, b1, t1) => let '(r, b2, t2) := k a e b1 in (r, b2, (t1 ++ t2)%list)
    | (Thrown msg, b1, t1) => (Thrown msg, b1, t1)
    | (Returned r, b1, t1) => (Returned r, b1, t1)
    end.

Definition throw {A : Type} (msg : string) : M A := fun _ b => (Thrown msg, b, []).

Definition respond {A : Type} (code : Z) (j : body) : M A :=
  fun _ b => (Returned {| status := code; json := j |}, b, []).

Definition try_catch {A : Type} (m : M A) (handle : string -> M A) : M A :=
  fun e b =>
    match m e b with
    | (Thrown msg, b1, t1) => let '(r, b2, t2) := handle msg e b1 in (r, b2, (t1 ++ t2)%list)
    | other => other
    end.

Definition getenv {A : Type} (f : env -> A) : M A := fun e b => (Val (f e), b, []).

Declare Scope handler_scope.
Delimit Scope handler_scope with handler.
Notation "x <- c1 ;; c2" := (bind c1 (fun x => c2))
  (at level 61, c1 at next level, right associativity) : handler_scope.
Notation "c1 ;; c2" := (bind c1 (fun _ => c2))
  (at level 61, right associativity) : handler_scope.

(** [{ data, error }] *)
Inductive reply (A : Type) : Type :=
| Data (data : A)
| Error (message : string).

Arguments Data {A} data.
Arguments Error {A} message.

(** [if (error) throw error;] *)
Definition or_throw {A : Type} (r : reply A) : M A :=
  match r with
  | Data a => ret a
  | Error msg => throw msg
  end.

Definition is_data {A : Type} (r : reply A) : bool :=
  match r with
  | Data _ => true
  | Error _ => false
  end.

(** One call to a service: [answer] computes the reply and the new state of
    the backend when nothing goes wrong on the way. *)
Definition service_call {A : Type} (faulty : env -> option fault) (c : call)
    (answer : backend -> reply A * backend) : M (reply A) :=
  fun e b =>
    match faulty e with
    | Some (RepliesError msg) => (Val (Error msg), b, [ {| ev_call := c; ev_ok := false |} ])
    | Some (Rejects msg) => (Thrown msg, b, [ {| ev_call := c; ev_ok := false |} ])
    | None =>
        let '(r, b1) := answer b in
        (Val r, b1, [ {| ev_call := c; ev_ok := is_data r |} ])
    end.

(** What one request did: the response sent, the backend it leaves and the
    calls it made. *)
Record outcome : Type := mk_outcome {
  sent : response;
  db_after : backend;
  calls : list event }.

(** The whole of a route: [try { route } catch (err) { res.status(500)... }]. *)
Definition handler (route : M response) : env -> backend -> outcome :=
  fun e b =>
    match route e b with
    | (Val r, b1, t) => {| sent := r; db_after := b1; calls := t |}
    | (Returned r, b1, t) => {| sent := r; db_after := b1; calls := t |}
    | (Thrown msg, b1, t) =>
        {| sent := {| status := 500; json := ErrorBody msg |};
           db_after := b1; calls := t |}
    end.

(* ================================================================== *)
(** ** Count queries and [Promise.all] *)
(* ================================================================== *)

(** How a count-only query is answered: with the exact count, with a reply
    that carries no count, or with a fault. *)
Inductive count_answer : Type :=
| Exact
| NoCount
| Fails (f : fault).

(** [{ count, error }] *)
Record count_reply : Type := mk_count_reply {
  count : option Z;
  count_error : option string }.

Inductive settled (A : Type) : Type :=
| Fulfilled (value : A)
| Rejected (message : string).

Arguments Fulfilled {A} value.
Arguments Rejected {A} message.

Definition rejection {A : Type} (p : settled A) : option string :=
  match p with
  | Fulfilled _ => None
  | Rejected msg => Some msg
  end.

Fixpoint first_some {A : Type} (l : list (option A)) : option A :=
  match l with
  | [] => None
  | Some a :: _ => Some a
  | None :: l' => first_some l'
  end.

(** [Promise.all([p1, p2, p3, p4])]: fulfilled with the four values when all
    four are, rejected with the reason of the promise that rejects first in
    time otherwise.  [order] lists the promises (0..3) in the order they
    settle. *)
Definition Promise_all4 {A : Type} (order : list nat) (p1 p2 p3 p4 : settled A)
  : settled (A * A * A * A) :=
  let rs := [rejection p1; rejection p2; rejection p3; rejection p4] in
  match first_some (map (fun i => nth i rs None) order ++ rs) with
  | Some msg => Rejected msg
  | None =>
      match p1, p2, p3, p4 with
      | Fulfilled a, Fulfilled b, Fulfilled c, Fulfilled d => Fulfilled (a, b, c, d)
      | _, _, _, _ => Rejected ""
      end
  end.

(** What the four count queries are answered during one request, and the
    server's clock. *)
Record stats_env : Type := mk_stats_env {
  now : Z;
  patients_answer : count_answer;
  doctors_answer : count_answer;
  appointments_answer : count_answer;
  today_answer : count_answer;
  settle_order : list nat }.

(* ================================================================== *)
(** ** The routes *)
(* ================================================================== *)

Section Routes.

(** The platform's [Date.parse] (None for NaN) and
    [Date.prototype.toLocaleString] on a valid date. *)
Variable Date_parse : string -> option Z.
Variable toLocaleString : Z -> string.

Local Open Scope handler_scope.

(** [new Date(s)] *)
Definition new_Date (s : string) : Date :=
  match Date_parse s with
  | Some t => TimeClip t
  | None => None
  end.

(** [d.toISOString()]: throws a RangeError on an invalid date.  The ISO
    string stands for its instant, here the time value itself. *)
Definition toISOString (d : Date) : M Z :=
  match d with
  | Some t => ret t
  | None => throw "Invalid time value"
  end.

(** [new Date(s).toLocaleString()] *)
Definition locale_text (s : string) : string :=
  match new_Date s with
  | Some t => toLocaleString t
  | None => "Invalid Date"
  end.

(** *** The queries, as the backend evaluates them *)

(** [.eq('doctor_name', d).gte('appointment_date', lo)
      .lte('appointment_date', hi)] on one row. *)
Definition in_window (d : string) (lo hi : Z) (a : appointment) : bool :=
  String.eqb (a_doctor_name a) d &&
  match Date_parse (a_appointment_date a) with
  | Some t => (lo <=? t) && (t <=? hi)
  | None => false
  end.

(** [supabase.from('appointments').select('id').eq(..).gte(..).lte(..)] *)
Definition select_conflicts (d : string) (lo hi : Z) : M (reply (list Z)) :=
  service_call conflict_fault (SelectConflicts d lo hi)
    (fun b => (Data (map a_id (filter (in_window d lo hi) (appointments b))), b)).

(** The rows of [patients] with [.eq('contact_number', c)]. *)
Definition matching_patients (c : string) (b : backend) : list patient :=
  filter (fun p => String.eqb (p_contact_number p) c) (patients b).

(** [supabase.from('patients').select('id').eq('contact_number', c)
      .maybeSingle()]: [null] for no row, the row when there is one, an
    error when several rows match. *)
Definition select_patient (c : string) : M (reply (option Z)) :=
  service_call search_fault (SelectPatient c)
    (fun b =>
       match matching_patients c b with
       | [] => (Data None, b)
       | [p] => (Data (Some (p_id p)), b)
       | _ :: _ :: _ =>
           (Error "JSON object requested, multiple (or no) rows returned", b)
       end).

(** [supabaseAdmin.auth.admin.createUser({ email, password,
      email_confirm: true, user_metadata: { role: 'patient', name } })] *)
Definition createUser (email : string) (password : jsvalue) (name : string)
  : M (reply auth_user) :=
  uid <- getenv generated_user_id ;;
  let u := {| u_id := uid; u_email := email; u_password := password;
              u_email_confirm := true; u_role := "patient"; u_name := name |} in
  service_call auth_fault (CreateUser u)
    (fun b => (Data u, {| patients := patients b; doctors := doctors b;
                          appointments := appointments b;
                          auth_users := auth_users b ++ [u] |})).

(** [supabase.from('patients').insert([{ name, age, condition,
      contact_number, status, email }]).select().single()] *)
Definition insert_patient (name : string) (age : Z)
    (condition contact_number status email : string) : M (reply patient) :=
  pid <- getenv generated_patient_id ;;
  let row := {| p_id := pid; p_name := name; p_age := age;
                p_condition := condition; p_status := status;
                p_contact_number := contact_number; p_email := email |} in
  service_call patient_fault (InsertPatient row)
    (fun b => (Data row, {| patients := patients b ++ [row]; doctors := doctors b;
                            appointments := appointments b;
                            auth_users := auth_users b |})).

(** [supabase.from('appointments').insert([{ patient_id, doctor_name,
      appointment_date, reason }]).select().single()] *)
Definition insert_appointment (patient_id : Z)
    (doctor_name appointment_date reason : string) : M (reply appointment) :=
  aid <- getenv generated_appointment_id ;;
  let row := {| a_id := aid; a_patient_id := patient_id;
                a_doctor_name := doctor_name;
                a_appointment_date := appointment_date;
                a_reason := reason |} in
  service_call appointment_fault (InsertAppointment row)
    (fun b => (Data row, {| patients := patients b; doctors := doctors b;
                            appointments := appointments b ++ [row];
                            auth_users := auth_users b |})).

(** [resend.emails.send(m)] *)
Definition emails_send (m : email) : M (reply unit) :=
  service_call email_fault (EmailsSend m) (fun b => (Data tt, b)).

Definition nl : string := String (ascii_of_nat 10) "".

(** *** POST /api/appointments *)
Definition confirmation_email (doctor_name appointment_date reason : string) : email :=
  {| m_from := "onboarding@resend.dev";
     m_to := "delivered@resend.dev";
     m_subject := "Appointment Confirmation";
     m_html :=
       nl ++ "            <h1>Appointment Confirmed</h1>" ++
       nl ++ "            <p>Your appointment with <strong>" ++ doctor_name ++
             "</strong> is scheduled for <strong>" ++
             locale_text appointment_date ++ "</strong>.</p>" ++
       nl ++ "            <p>Reason: " ++ reason ++ "</p>" ++
       nl ++ "          " |}.

Definition create_appointment (req : appointment_request)
  : env -> backend -> outcome :=
  handler (
    let patient_id := ar_patient_id req in
    let doctor_name := ar_doctor_name req in
    let appointment_date := ar_appointment_date req in
    let reason := ar_reason req in
    (* 1. Save to Supabase *)
    dbReply <- insert_appointment patient_id doctor_name appointment_date reason ;;
    appointment <- or_throw dbReply ;;
    (* 2. Send Email via Resend *)
    try_catch
      (key <- getenv RESEND_API_KEY ;;
       if key
       then emails_send (confirmation_email doctor_name appointment_date reason) ;;
            ret tt
       else ret tt)
      (fun emailError => ret tt) ;;
    respond 201 (AppointmentBody appointment)).

(** *** POST /api/public/book *)
Definition booking_email (name doctor_name doctor_specialty appointment_date : string)
  : email :=
  {| m_from := "onboarding@resend.dev";
     m_to := "delivered@resend.dev";
     m_subject := "Appointment Confirmed";
     m_html :=
       nl ++ "                    <h1>Appointment Confirmed</h1>" ++
       nl ++ "                    <p>Dear " ++ name ++ ",</p>" ++
       nl ++ "                    <p>Your appointment with <strong>" ++ doctor_name ++
             "</strong> (" ++ doctor_specialty ++
             ") is scheduled for <strong>" ++
             locale_text appointment_date ++ "</strong>.</p>" ++
       nl ++ "                " |}.

(** [`${doctor_name} (${doctor_specialty})`] *)
Definition formatted_doctor (doctor_name doctor_specialty : string) : string :=
  doctor_name ++ " (" ++ doctor_specialty ++ ")".

Definition public_book (req : booking_request)
  : env -> backend -> outcome :=
  handler (
    let name := bk_name req in
    let email := bk_email req in
    let age := bk_age req in
    let condition := bk_condition req in
    let contact_number := bk_contact_number req in
    let doctor_name := bk_doctor_name req in
    let doctor_specialty := bk_doctor_specialty req in
    let appointment_date := bk_appointment_date req in
    let reason := bk_reason req in
    (* 0. CLASH DETECTION *)
    let requestedTime := new_Date appointment_date in
    thirtyMinsBefore <- toISOString (Date_offset requestedTime (- (30 * 60000))) ;;
    thirtyMinsAfter <- toISOString (Date_offset requestedTime (30 * 60000)) ;;
    conflictReply <- select_conflicts (formatted_doctor doctor_name doctor_specialty)
                       thirtyMinsBefore thirtyMinsAfter ;;
    conflicts <- or_throw conflictReply ;;
    if 0 <? Z.of_nat (List.length conflicts)
    then respond 409
           (ErrorBody "This time slot is already booked. Please choose another time.")
    else
    (* 1. Check if patient exists *)
    searchReply <- select_patient contact_number ;;
    existingPatient <- or_throw searchReply ;;
    patient_id <-
      match existingPatient with
      | Some id => ret id
      | None =>
          (* 2. Create Auth user with patient role *)
          let password := bk_password req in
          if password_rejected password
          then respond 400 (ErrorBody "Password must be at least 6 characters long")
          else
          authReply <- createUser email password name ;;
          match authReply with
          | Error message =>
              throw ("Failed to create user account: " ++ message)
          | Data authUser =>
              (* 3. Create patient record *)
              createReply <- insert_patient name age condition contact_number
                               "Outpatient" email ;;
              newPatient <- or_throw createReply ;;
              ret (p_id newPatient)
          end
      end ;;
    (* 3. Create Appointment *)
    apptReply <- insert_appointment patient_id
                   (formatted_doctor doctor_name doctor_specialty)
                   appointment_date reason ;;
    appointment <- or_throw apptReply ;;
    (* 4. Send Confirmation Email *)
    try_catch
      (key <- getenv RESEND_API_KEY ;;
       if key
       then emails_send (booking_email name doctor_name doctor_specialty
                           appointment_date) ;;
            ret tt
       else ret tt)
      (fun e => ret tt) ;;
    respond 201 (BookedBody true appointment)).

(** *** GET /api/dashboard/stats *)

(** [.select('*', { count: 'exact', head: true })] settles to a reply
    [{ count, error }] or rejects. *)
Definition count_query (ans : count_answer) (n : nat) : settled count_reply :=
  match ans with
  | Exact => Fulfilled {| count := Some (Z.of_nat n); count_error := None |}
  | NoCount => Fulfilled {| count := None; count_error := None |}
  | Fails (RepliesError msg) =>
      Fulfilled {| count := None; count_error := Some msg |}
  | Fails (Rejects msg) => Rejected msg
  end.

(** [.gte('appointment_date', lo).lt('appointment_date', hi)] on one row. *)
Definition on_day (lo hi : Z) (a : appointment) : bool :=
  match Date_parse (a_appointment_date a) with
  | Some t => (lo <=? t) && (t <? hi)
  | None => false
  end.

(** The rows of today's count; the backend refuses bounds it cannot read
    as timestamps. *)
Definition count_today (ans : count_answer) (gte lt : string) (b : backend)
  : settled count_reply :=
  match Date_parse gte, Date_parse lt with
  | Some lo, Some hi =>
      count_query ans (List.length (filter (on_day lo hi) (appointments b)))
  | _, _ =>
      count_query
        (match ans with
         | Fails f => Fails f
         | _ => Fails (RepliesError "invalid input syntax for type timestamp")
         end) 0
  end.

(** The server's clock is [now]; the day after, [setDate(getDate() + 1)],
    is taken 24 hours later (a server zone with no clock change that
    day). *)
Definition dashboard_stats (e : stats_env) (b : backend) : response :=
  match
    Promise_all4 (settle_order e)
      (count_query (patients_answer e) (List.length (patients b)))
      (count_query (doctors_answer e) (List.length (doctors b)))
      (count_query (appointments_answer e) (List.length (appointments b)))
      (count_today (today_answer e)
         (iso_date_part (now e))
         (iso_date_part (now e + ms_per_day)) b)
  with
  | Fulfilled (patients, doctors, appointments, appointmentsToday) =>
      {| status := 200;
         json := StatsBody (or_zero (count patients))
                           (or_zero (count doctors))
                           (or_zero (count appointments))
                           (or_zero (count appointmentsToday)) |}
  | Rejected msg => {| status := 500; json := ErrorBody msg |}
  end.

End Routes.

(* ================================================================== *)
(** ** The other routes *)
(* ================================================================== *)

(** GET /: [res.send(..)] *)
Definition root_text : string := "Hospital Management System API is running".

(** GET /api/health: [{ status: 'ok', server_time: new Date() }] *)
Record health_body : Type := mk_health_body {
  h_status : string;
  h_server_time : Date }.

Definition health (clock : Z) : health_body :=
  {| h_status := "ok"; h_server_time := TimeClip clock |}.

(** A JSON response whose success body is of type [A]. *)
Inductive payload (A : Type) : Type :=
| Json (data : A)                (* res.json(data) *)
| JsonError (error : string)     (* res.status(500).json({ error }) *)
| JsonBody (b : body).           (* a response made inside the route *)

Arguments Json {A} data.
Arguments JsonError {A} error.
Arguments JsonBody {A} b.

Record http (A : Type) : Type := mk_http {
  code : Z;
  content : payload A }.

Arguments mk_http {A} code content.
Arguments code {A} h.
Arguments content {A} h.

(** What a request to one of these routes did. *)
Record served (A : Type) : Type := mk_served {
  answer : http A;
  store : backend;
  made : list event }.

Arguments mk_served {A} answer store made.
Arguments answer {A} s.
Arguments store {A} s.
Arguments made {A} s.

(** [try { ...; res.status(success).json(a) } catch (err)
      { res.status(500).json({ error: err.message }) }] *)
Definition route {A : Type} (success : Z) (m : M A) : env -> backend -> served A :=
  fun e b =>
    match m e b with
    | (Val a, b1, t) =>
        {| answer := {| code := success; content := Json a |}; store := b1; made := t |}
    | (Thrown msg, b1, t) =>
        {| answer := {| code := 500; content := JsonError msg |}; store := b1; made := t |}
    | (Returned r, b1, t) =>
        {| answer := {| code := status r; content := JsonBody (json r) |};
           store := b1; made := t |}
    end.

(** *** POST /api/patients *)
Record patient_request : Type := mk_patient_request {
  pr_name : string;
  pr_age : Z;
  pr_condition : string;
  pr_status : string;
  pr_contact_number : string;
  pr_email : string }.

(** The insert ends in [.select()]; [data[0]] is the inserted row. *)
Definition create_patient (req : patient_request) : env -> backend -> served patient :=
  route 201 (
    let name := pr_name req in
    let age := pr_age req in
    let condition := pr_condition req in
    let status := pr_status req in
    let contact_number := pr_contact_number req in
    let email := pr_email req in
    insertReply <- insert_patient name age condition contact_number status email ;;
    or_throw insertReply)%handler.

(** *** The list routes *)

(** A read-only query that would answer [data], awaited. *)
Definition awaited {A : Type} (q : option fault) (data : A) : settled (reply A) :=
  match q with
  | None => Fulfilled (Data data)
  | Some (RepliesError msg) => Fulfilled (Error msg)
  | Some (Rejects msg) => Rejected msg
  end.

(** [try { const { data, error } = await query; if (error) throw error;
      res.json(data) } catch (err) { res.status(500).json(..) }] *)
Definition list_route {A : Type} (p : settled (reply A)) : http A :=
  match p with
  | Fulfilled (Data data) => {| code := 200; content := Json data |}
  | Fulfilled (Error msg) => {| code := 500; content := JsonError msg |}
  | Rejected msg => {| code := 500; content := JsonError msg |}
  end.

(** [.order(..)]: the rows in the order [leb], rows that compare equal in
    the order the table has them. *)
Fixpoint insert_by {A : Type} (leb : A -> A -> bool) (x : A) (l : list A) : list A :=
  match l with
  | [] => [x]
  | y :: l' => if leb x y then x :: l else y :: insert_by leb x l'
  end.

Fixpoint order_by {A : Type} (leb : A -> A -> bool) (l : list A) : list A :=
  match l with
  | [] => []
  | x :: l' => insert_by leb x (order_by leb l')
  end.

(** Ascending order of timestamps, a missing one last. *)
Definition date_leb (x y : option Z) : bool :=
  match x, y with
  | Some s, Some t => s <=? t
  | _, None => true
  | None, Some _ => false
  end.

(** GET /api/doctors: [.from('doctors').select('*')] *)
Definition list_doctors (q : option fault) (b : backend) : http (list doctor) :=
  list_route (awaited q (doctors b)).

(** A row of GET /api/appointments: the appointment and, embedded, the
    referenced patient's [name] and [contact_number] ([null] if none). *)
Record appointment_row : Type := mk_appointment_row {
  ap_appointment : appointment;
  ap_patients : option (string * string) }.

(** [patients (name, contact_number)]: the patient the row's [patient_id]
    refers to; [id] is the key of [patients]. *)
Definition embed_patient (b : backend) (a : appointment) : appointment_row :=
  {| ap_appointment := a;
     ap_patients :=
       match find (fun p => p_id p =? a_patient_id a) (patients b) with
       | Some p => Some (p_name p, p_contact_number p)
       | None => None
       end |}.

Section Lists.

(** The [created_at] column of [patients], which the rows here do not
    carry, and the backend's reading of a timestamp. *)
Variable created_at : patient -> Z.
Variable Date_parse : string -> option Z.

(** GET /api/patients:
    [.select('*').order('created_at', { ascending: false })] *)
Definition newer_first (x y : patient) : bool := created_at y <=? created_at x.

Definition list_patients (q : option fault) (b : backend) : http (list patient) :=
  list_route (awaited q (order_by newer_first (patients b))).

(** GET /api/appointments:
    [.select(`*, patients (name, contact_number)`)
     .order('appointment_date', { ascending: true })] *)
Definition earlier_first (x y : appointment) : bool :=
  date_leb (Date_parse (a_appointment_date x)) (Date_parse (a_appointment_date y)).

Definition list_appointments (q : option fault) (b : backend)
  : http (list appointment_row) :=
  list_route (awaited q (map (embed_patient b) (order_by earlier_first (appointments b)))).

(** The appointments of the day the dashboard counts at time [clock]; none
    when the backend cannot read the day's bounds. *)
Definition today_rows (clock : Z) (b : backend) : nat :=
  match Date_parse (iso_date_part clock),
        Date_parse (iso_date_part (clock + ms_per_day)) with
  | Some lo, Some hi =>
      List.length (filter (on_day Date_parse lo hi) (appointments b))
  | _, _ => 0%nat
  end.

End Lists.

(** [e] with another email configuration. *)
Definition with_email (key : bool) (mail : option fault) (e : env) : env :=
  {| RESEND_API_KEY := key;
     conflict_fault := conflict_fault e;
     search_fault := search_fault e;
     auth_fault := auth_fault e;
     patient_fault := patient_fault e;
     appointment_fault := appointment_fault e;
     email_fault := mail;
     generated_user_id := generated_user_id e;
     generated_patient_id := generated_patient_id e;
     generated_appointment_id := generated_appointment_id e |}.

(** [err.message] for a failed call. *)
Definition message_of (f : fault) : string :=
  match f with
  | RepliesError msg => msg
  | Rejects msg => msg
  end.

(** The number the dashboard shows for a query answered [ans] on [n] rows. *)
Definition shown (ans : count_answer) (n : nat) : Z :=
  match ans with
  | Exact => Z.of_nat n
  | _ => 0
  end.

(* ================================================================== *)
(** ** Scenario data *)
(* ================================================================== *)

(** Services that answer every call; only the email dispatch may fail. *)
Definition working (key : bool) (mail : option fault) (uid pid aid : Z) : env :=
  {| RESEND_API_KEY := key; conflict_fault := None; search_fault := None;
     auth_fault := None; patient_fault := None; appointment_fault := None;
     email_fault := mail; generated_user_id := uid; generated_patient_id := pid;
     generated_appointment_id := aid |}.

Definition scenario_request (appointment_date : string) : booking_request :=
  {| bk_name := "A"; bk_email := "a@x.com"; bk_age := 30; bk_condition := "flu";
     bk_contact_number := "555"; bk_doctor_name := "Dr Smith";
     bk_doctor_specialty := "GP"; bk_appointment_date := appointment_date;
     bk_reason := "checkup"; bk_password := JSstring "secret1" |}.

Definition patient_A : patient :=
  {| p_id := 1; p_name := "A"; p_age := 30; p_condition := "flu";
     p_status := "Outpatient"; p_contact_number := "555"; p_email := "a@x.com" |}.

Definition smith_at (id : Z) (appointment_date : string) : appointment :=
  {| a_id := id; a_patient_id := 1; a_doctor_name := "Dr Smith (GP)";
     a_appointment_date := appointment_date; a_reason := "checkup" |}.

(** A backend holding patient A and the given appointments with Dr Smith. *)
Definition booked (l : list appointment) : backend :=
  {| patients := [patient_A]; doctors := []; appointments := l; auth_users := [] |}.

(** A second caller, not yet a patient, with a password of three characters. *)
Definition newcomer_request (appointment_date : string) : booking_request :=
  {| bk_name := "B"; bk_email := "b@x.com"; bk_age := 41; bk_condition := "cough";
     bk_contact_number := "777"; bk_doctor_name := "Dr Smith";
     bk_doctor_specialty := "GP"; bk_appointment_date := appointment_date;
     bk_reason := "checkup"; bk_password := JSstring "abc" |}.

(** A third caller, not yet a patient, whose password is three characters
    of three bytes each. *)
Definition short_unicode_request (appointment_date : string) : booking_request :=
  {| bk_name := "C"; bk_email := "c@x.com"; bk_age := 27; bk_condition := "cold";
     bk_contact_number := "888"; bk_doctor_name := "Dr Smith";
     bk_doctor_specialty := "GP"; bk_appointment_date := appointment_date;
     bk_reason := "checkup"; bk_password := JSstring "日本語" |}.

Definition staff_request (appointment_date : string) : appointment_request :=
  {| ar_patient_id := 1; ar_doctor_name := "Dr Smith (GP)";
     ar_appointment_date := appointment_date; ar_reason := "checkup";
     ar_patient_email := "a@x.com" |}.

Definition email_down : option fault := Some (Rejects "Unable to reach the email service").

(** Services whose conflict query is answered with an error. *)
Definition conflict_query_down : env :=
  {| RESEND_API_KEY := true; conflict_fault := Some (RepliesError "upstream timeout");
     search_fault := None; auth_fault := None; patient_fault := None;
     appointment_fault := None; email_fault := None; generated_user_id := 10;
     generated_patient_id := 11; generated_appointment_id := 12 |}.

(** A stand-in for [toLocaleString] in the examples: the UTC calendar date. *)
Definition date_only_locale (t : Z) : string := iso_date_part t.

(** A dashboard request at 2024-01-01T10:00:00Z. *)
Definition stats_at_ten (patients_q doctors_q : count_answer) : stats_env :=
  {| now := 1704103200000; patients_answer := patients_q;
     doctors_answer := doctors_q; appointments_answer := Exact;
     today_answer := Exact; settle_order := [0; 1; 2; 3]%nat |}.

(** *** Further scenario data *)

(** [e] where the account creation, the patient insert and the appointment
    insert are answered as given. *)
Definition with_faults (auth patient appointment : option fault) (e : env) : env :=
  {| RESEND_API_KEY := RESEND_API_KEY e;
     conflict_fault := conflict_fault e;
     search_fault := search_fault e;
     auth_fault := auth;
     patient_fault := patient;
     appointment_fault := appointment;
     email_fault := email_fault e;
     generated_user_id := generated_user_id e;
     generated_patient_id := generated_patient_id e;
     generated_appointment_id := generated_appointment_id e |}.

(** The account the scenario's booking creates when the backend generates
    user id 10. *)
Definition account_A : auth_user :=
  {| u_id := 10; u_email := "a@x.com"; u_password := JSstring "secret1";
     u_email_confirm := true; u_role := "patient"; u_name := "A" |}.

(** Patient A as POST /api/patients receives it. *)
Definition patient_A_request : patient_request :=
  {| pr_name := "A"; pr_age := 30; pr_condition := "flu"; pr_status := "Outpatient";
     pr_contact_number := "555"; pr_email := "a@x.com" |}.

(** A second patient stored with A's contact number. *)
Definition patient_A_again : patient :=
  {| p_id := 2; p_name := "A"; p_age := 30; p_condition := "flu";
     p_status := "Inpatient"; p_contact_number := "555"; p_email := "a2@x.com" |}.

Definition twice_stored : backend :=
  {| patients := [patient_A; patient_A_again]; doctors := [];
     appointments := []; auth_users := [] |}.

(** A newcomer who sends the number 123456 as password. *)
Definition numeric_password_request (appointment_date : string) : booking_request :=
  {| bk_name := "B"; bk_email := "b@x.com"; bk_age := 41; bk_condition := "cough";
     bk_contact_number := "777"; bk_doctor_name := "Dr Smith";
     bk_doctor_specialty := "GP"; bk_appointment_date := appointment_date;
     bk_reason := "checkup"; bk_password := JSnumber 123456 |}.

(** A stand-in for the [created_at] column in the examples: rows created
    in the order of their ids. *)
Definition created_in_id_order (p : patient) : Z := p_id p.

(* ================================================================== *)
(** ** What the claims speak about *)
(* ================================================================== *)

(** The ±30 minute window around [T] stays inside the range of dates. *)
Definition window_valid (T : Z) : Prop :=
  Z.abs (T - 30 * 60000) <= 8640000000000000 /\
  Z.abs (T + 30 * 60000) <= 8640000000000000.

(** The password is absent, or a string of fewer than six characters
    (UTF-16 code units, as [length] counts them). *)
Definition absent_or_short (password : jsvalue) : Prop :=
  password = JSundefined \/
  exists s, password = JSstring s /\ (utf16_length s < 6)%nat.

(** Calls that only read. *)
Definition is_query (c : call) : bool :=
  match c with
  | SelectConflicts _ _ _ | SelectPatient _ => true
  | _ => false
  end.

(** The count a reply carries, 0 when it carries none. *)
Definition count_or_0 (c : option Z) : Z :=
  match c with
  | Some n => n
  | None => 0
  end.

Section Notions.

Variable Date_parse : string -> option Z.

(** Appointment [a] is stored for the doctor of request [req], formatted
    "Name (Specialty)", at a time within 30 minutes of [T]. *)
Definition clashes_with (req : booking_request) (T : Z) (a : appointment) : Prop :=
  a_doctor_name a = formatted_doctor (bk_doctor_name req) (bk_doctor_specialty req) /\
  exists T', Date_parse (a_appointment_date a) = Some T' /\
             Z.abs (T - T') <= 30 * 60000.

End Notions.

(* ================================================================== *)
(** ** Properties *)
(* ================================================================== *)

Example iso_utc_parse_epoch : iso_utc_parse "1970-01-01T00:00:00Z" = Some 0.
Proof. reflexivity. Qed.

Example iso_utc_parse_scenario :
  iso_utc_parse "2024-01-01T10:00:00Z" = Some 1704103200000.
Proof. reflexivity. Qed.

Example iso_date_part_scenario : iso_date_part 1704103200000 = "2024-01-01".
Proof. reflexivity. Qed.

Lemma or_zero_count (c : option Z) : or_zero c = count_or_0 c.
Proof.
  destruct c as [n|]; simpl; [|reflexivity].
  destruct (Z.eqb_spec n 0) as [->|_]; reflexivity.
Qed.

Lemma absent_or_short_rejected (password : jsvalue) :
  absent_or_short password -> password_rejected password = true.
Proof.
  intros [->|[s [-> Hs]]]; [reflexivity|].
  unfold password_rejected; simpl.
  apply orb_true_iff; right. apply Z.ltb_lt. lia.
Qed.

Lemma long_password_accepted (s : string) :
  (6 <= utf16_length s)%nat -> password_rejected (JSstring s) = false.
Proof.
  intros Hs. unfold password_rejected; simpl.
  apply orb_false_iff; split.
  - destruct s; simpl in *; [lia|reflexivity].
  - apply Z.ltb_ge. lia.
Qed.

(** On a string the check is on its length alone. *)
Lemma string_password_rejected (s : string) :
  password_rejected (JSstring s) = true <-> (utf16_length s < 6)%nat.
Proof.
  split.
  - intros H. destruct (Nat.lt_ge_cases (utf16_length s) 6) as [Hlt|Hge];
      [exact Hlt|].
    rewrite (long_password_accepted s Hge) in H. discriminate H.
  - intros H. apply absent_or_short_rejected. right. now exists s.
Qed.

Example length_counts_code_units :
  utf16_length "secret1" = 7%nat /\
  utf16_length "日本語" = 3%nat /\
  password_rejected (JSstring "日本語") = true.
Proof. repeat split. Qed.

Lemma window_of_offsets (T lo hi : Z) :
  Date_offset (Some T) (- (30 * 60000)) = Some lo ->
  Date_offset (Some T) (30 * 60000) = Some hi ->
  window_valid T.
Proof.
  unfold Date_offset, TimeClip, window_valid. intros H1 H2.
  destruct (Z.leb_spec (Z.abs (T + - (30 * 60000))) 8640000000000000);
    [|discriminate].
  destruct (Z.leb_spec (Z.abs (T + 30 * 60000)) 8640000000000000);
    [|discriminate].
  lia.
Qed.

Lemma matching_none (c : string) (b : backend) :
  matching_patients c b = [] <->
  forall p, In p (patients b) -> p_contact_number p <> c.
Proof.
  unfold matching_patients. split.
  - intros H p Hp Hc.
    assert (Hin : In p (filter (fun p => String.eqb (p_contact_number p) c) (patients b))).
    { apply filter_In; split; [exact Hp|]. now apply String.eqb_eq. }
    rewrite H in Hin. exact Hin.
  - intros H. induction (patients b) as [|p l IH]; [reflexivity|].
    simpl. destruct (String.eqb_spec (p_contact_number p) c) as [Heq|_].
    + exfalso. apply (H p); [now left|exact Heq].
    + apply IH. intros q Hq. apply H. now right.
Qed.

Lemma matching_In (c : string) (b : backend) (p : patient) :
  In p (matching_patients c b) <-> In p (patients b) /\ p_contact_number p = c.
Proof.
  unfold matching_patients. rewrite filter_In.
  split; intros [H1 H2]; (split; [exact H1|]); now apply String.eqb_eq.
Qed.

Section Properties.

Variable Date_parse : string -> option Z.
Variable toLocaleString : Z -> string.

(** Symbolic execution of a route: unfold the monad, then split on the
    next thing the run depends on. *)
Ltac unfold_route :=
  cbv beta iota zeta delta
    [public_book create_appointment handler bind try_catch
     select_conflicts select_patient createUser insert_patient
     insert_appointment emails_send service_call or_throw toISOString
     getenv ret throw respond is_data sent db_after calls app status json].

Ltac split_match :=
  match goal with
  | |- context [match ?x with _ => _ end] =>
      lazymatch x with
      | context [match _ with _ => _ end] => fail
      | _ => destruct x eqn:?
      end
  end.

Ltac run := unfold_route; repeat (split_match; unfold_route).

Ltac pick_event H :=
  cbn [In] in H;
  repeat (destruct H as [H|H]; [try discriminate H|]);
  try contradiction.

Ltac unfold_notions := unfold in_window, clashes_with.
Ltac unfold_dashboard := unfold dashboard_stats.

Local Abbreviation public_book := (public_book Date_parse toLocaleString).
Local Abbreviation create_appointment := (create_appointment Date_parse toLocaleString).
Local Abbreviation dashboard_stats := (dashboard_stats Date_parse).
Local Abbreviation new_Date := (new_Date Date_parse).
Local Abbreviation in_window := (in_window Date_parse).
Local Abbreviation clashes_with := (clashes_with Date_parse).

(** *** Clash detection *)

Lemma in_window_iff (req : booking_request) (T : Z) (a : appointment) :
  in_window (formatted_doctor (bk_doctor_name req) (bk_doctor_specialty req))
    (T + - (30 * 60000)) (T + 30 * 60000) a = true <->
  clashes_with req T a.
Proof.
  unfold_notions.
  rewrite andb_true_iff, String.eqb_eq.
  split; intros [Hd H]; (split; [exact Hd|]).
  - destruct (Date_parse (a_appointment_date a)) as [T'|]; [|discriminate].
    exists T'. split; [reflexivity|].
    apply andb_true_iff in H. destruct H as [H1 H2].
    apply Z.leb_le in H1, H2. lia.
  - destruct H as [T' [-> H]].
    apply andb_true_iff. split; apply Z.leb_le; lia.
Qed.

Lemma conflicts_found (d : string) (lo hi : Z) (l : list appointment) :
  (0 <? Z.of_nat (List.length (map a_id (filter (in_window d lo hi) l)))) = true <->
  exists a, In a l /\ in_window d lo hi a = true.
Proof.
  rewrite length_map. split.
  - intros H. destruct (filter (in_window d lo hi) l) as [|a l'] eqn:Hf;
      [discriminate|].
    exists a. apply filter_In. rewrite Hf. now left.
  - intros [a Ha]. apply filter_In in Ha.
    destruct (filter (in_window d lo hi) l); [contradiction|reflexivity].
Qed.

Lemma clash_found (req : booking_request) (T : Z) (b : backend) :
  (0 <? Z.of_nat (List.length (map a_id
     (filter (in_window (formatted_doctor (bk_doctor_name req) (bk_doctor_specialty req))
                (T + - (30 * 60000)) (T + 30 * 60000))
        (appointments b))))) = true <->
  exists a, In a (appointments b) /\ clashes_with req T a.
Proof.
  rewrite conflicts_found.
  split; intros [a [Ha Hc]]; exists a; (split; [exact Ha|]);
    now apply in_window_iff.
Qed.

Lemma window_dates (T : Z) :
  window_valid T ->
  Date_offset (Some T) (- (30 * 60000)) = Some (T + - (30 * 60000)) /\
  Date_offset (Some T) (30 * 60000) = Some (T + 30 * 60000).
Proof.
  intros [H1 H2]. unfold Date_offset, TimeClip.
  replace (Z.abs (T + - (30 * 60000)) <=? 8640000000000000) with true
    by (symmetry; apply Z.leb_le; lia).
  replace (Z.abs (T + 30 * 60000) <=? 8640000000000000) with true
    by (symmetry; apply Z.leb_le; lia).
  split; reflexivity.
Qed.

(** A valid window is the window of a valid date. *)
Lemma offsets_valid (d : Date) (lo hi : Z) :
  Date_offset d (- (30 * 60000)) = Some lo ->
  Date_offset d (30 * 60000) = Some hi ->
  exists T, d = Some T /\ lo = T + - (30 * 60000) /\ hi = T + 30 * 60000.
Proof.
  destruct d as [T|]; [|discriminate].
  unfold Date_offset, TimeClip. intros H1 H2. exists T.
  destruct (Z.abs (T + - (30 * 60000)) <=? 8640000000000000); [|discriminate].
  destruct (Z.abs (T + 30 * 60000) <=? 8640000000000000); [|discriminate].
  injection H1 as <-. injection H2 as <-. repeat split.
Qed.

(** C1 (as amended).  With a valid requested time [T] whose window is made
    of valid dates, and a conflict query that is answered: the handler
    answers 409 exactly when some stored appointment for the same formatted
    doctor name lies within 30 minutes of [T], both ends included.  When
    none does, the booking is accepted with 201 exactly when the patient
    lookup and the appointment insert are answered and either exactly one
    patient has the contact number, or none has, the password passes the
    check [!password || password.length < 6] and the account and patient
    creations are answered; otherwise it is answered 400 or 500. *)
Theorem public_book_clash_rule (req : booking_request) (e : env) (b : backend) (T : Z) :
  new_Date (bk_appointment_date req) = Some T ->
  window_valid T ->
  conflict_fault e = None ->
  (status (sent (public_book req e b)) = 409 <->
   exists a, In a (appointments b) /\ clashes_with req T a) /\
  ((forall a, In a (appointments b) -> ~ clashes_with req T a) ->
   (status (sent (public_book req e b)) = 201 <->
    search_fault e = None /\
    appointment_fault e = None /\
    ((exists p, matching_patients (bk_contact_number req) b = [p]) \/
     (matching_patients (bk_contact_number req) b = [] /\
      password_rejected (bk_password req) = false /\
      auth_fault e = None /\ patient_fault e = None))) /\
   (status (sent (public_book req e b)) = 201 \/
    status (sent (public_book req e b)) = 400 \/
    status (sent (public_book req e b)) = 500)).
Proof.
  intros Hd Hw Hc.
  destruct (window_dates T Hw) as [E1 E2].
  unfold_route. rewrite Hd, E1, E2. unfold_route. rewrite Hc. unfold_route.
  match goal with |- context [0 <? ?n] => destruct (0 <? n) eqn:Hconf end.
  - apply clash_found in Hconf. unfold_route. split.
    + split; [intros _; exact Hconf|reflexivity].
    + intros Hno. exfalso. destruct Hconf as [a [Ha Hcl]]. exact (Hno a Ha Hcl).
  - assert (Hno : ~ exists a, In a (appointments b) /\ clashes_with req T a).
    { intros H. apply clash_found in H. congruence. }
    clear Hconf. split.
    + split; [|intros H; contradiction].
      run; intros H; discriminate H.
    + intros _. split; [split|].
      * run; intros H; try discriminate H;
          (split; [reflexivity|]); (split; [reflexivity|]);
          first [ left; eexists; reflexivity | right; repeat split ].
      * run; intros [Hs [Ha Hp]]; try congruence; try reflexivity;
          destruct Hp as [[? Hp]|[Hp [Hpw [Hauth Hpat]]]]; congruence.
      * run; auto.
Qed.

(** C2 (as amended).  The clash check belongs to POST /api/public/book
    alone.  When a stored appointment for the formatted doctor name lies
    within 30 minutes of the requested time, public booking inserts nothing
    and does not answer 201 (it answers 409 when the window is valid and the
    conflict query is answered); POST /api/appointments, given the same
    doctor name and time, makes no check and stores the row whenever the
    backend accepts it. *)
Theorem clash_check_on_public_book_only
    (req : booking_request) (sreq : appointment_request) (e : env) (b : backend) (T : Z) :
  new_Date (bk_appointment_date req) = Some T ->
  (exists a, In a (appointments b) /\ clashes_with req T a) ->
  ar_doctor_name sreq = formatted_doctor (bk_doctor_name req) (bk_doctor_specialty req) ->
  ar_appointment_date sreq = bk_appointment_date req ->
  (db_after (public_book req e b) = b /\
   status (sent (public_book req e b)) <> 201 /\
   (window_valid T -> conflict_fault e = None ->
    status (sent (public_book req e b)) = 409)) /\
  (appointment_fault e = None ->
   status (sent (create_appointment sreq e b)) = 201 /\
   appointments (db_after (create_appointment sreq e b)) =
     (appointments b ++
      [ {| a_id := generated_appointment_id e;
           a_patient_id := ar_patient_id sreq;
           a_doctor_name := formatted_doctor (bk_doctor_name req) (bk_doctor_specialty req);
           a_appointment_date := bk_appointment_date req;
           a_reason := ar_reason sreq |} ])%list).
Proof.
  intros Hd Hclash Hn Ht. split.
  - unfold_route. rewrite Hd.
    destruct (Date_offset (Some T) (- (30 * 60000))) as [lo|] eqn:E1; unfold_route.
    2:{ repeat split; [discriminate|]. intros Hw _.
        destruct (window_dates T Hw) as [E _]. congruence. }
    destruct (Date_offset (Some T) (30 * 60000)) as [hi|] eqn:E2; unfold_route.
    2:{ repeat split; [discriminate|]. intros Hw _.
        destruct (window_dates T Hw) as [_ E]. congruence. }
    destruct (offsets_valid _ _ _ E1 E2) as [T0 [HT [-> ->]]].
    injection HT as <-.
    apply clash_found in Hclash.
    unfold_route.
    destruct (conflict_fault e) as [[msg|msg]|]; unfold_route;
      try (repeat split; [discriminate|intros _ H; discriminate H]).
    rewrite Hclash. unfold_route. repeat split. discriminate.
  - intros Ha. unfold_route. rewrite Ha, Hn, Ht. unfold_route.
    destruct (RESEND_API_KEY e); unfold_route;
      [destruct (email_fault e) as [[msg|msg]|]|]; unfold_route;
      split; reflexivity.
Qed.

(** C3 (as amended).  A public booking whose contact number matches no
    patient and whose password is absent or shorter than six characters
    creates nothing: the backend is left as it was and the only calls made
    are the two lookups.  Its answer is decided in the order of the route:
    500 "Invalid time value" when the requested time or its window is not
    a valid date; otherwise 500 with the backend's message when the
    conflict query fails; otherwise 409 when a stored appointment clashes;
    otherwise 500 with the backend's message when the patient lookup fails;
    otherwise 400 with the password message. *)
Theorem short_password_creates_nothing (req : booking_request) (e : env) (b : backend) :
  (forall p, In p (patients b) -> p_contact_number p <> bk_contact_number req) ->
  absent_or_short (bk_password req) ->
  db_after (public_book req e b) = b /\
  (forall ev, In ev (calls (public_book req e b)) -> is_query (ev_call ev) = true) /\
  (status (sent (public_book req e b)) = 400 \/
   status (sent (public_book req e b)) = 409 \/
   status (sent (public_book req e b)) = 500) /\
  ((forall T, new_Date (bk_appointment_date req) = Some T -> ~ window_valid T) ->
   sent (public_book req e b) =
     {| status := 500; json := ErrorBody "Invalid time value" |}) /\
  (forall T,
     new_Date (bk_appointment_date req) = Some T ->
     window_valid T ->
     (forall f, conflict_fault e = Some f ->
        sent (public_book req e b) =
          {| status := 500; json := ErrorBody (message_of f) |}) /\
     (conflict_fault e = None ->
      ((exists a, In a (appointments b) /\ clashes_with req T a) ->
       sent (public_book req e b) =
         {| status := 409;
            json := ErrorBody
                      "This time slot is already booked. Please choose another time." |}) /\
      ((forall a, In a (appointments b) -> ~ clashes_with req T a) ->
       (forall f, search_fault e = Some f ->
          sent (public_book req e b) =
            {| status := 500; json := ErrorBody (message_of f) |}) /\
       (search_fault e = None ->
        sent (public_book req e b) =
          {| status := 400;
             json := ErrorBody "Password must be at least 6 characters long" |})))).
Proof.
  intros Hnone Hpw.
  apply matching_none in Hnone. apply absent_or_short_rejected in Hpw.
  split; [|split; [|split; [|split]]].
  - revert Hnone Hpw. run; intros; congruence.
  - revert Hnone Hpw. run; intros Hnone Hpw ev Hev; try congruence;
      pick_event Hev; subst ev; reflexivity.
  - revert Hnone Hpw. run; intros; try congruence; auto.
  - intros Hbad. unfold_route.
    destruct (new_Date (bk_appointment_date req)) as [T|] eqn:Hd; [|reflexivity].
    specialize (Hbad T eq_refl).
    destruct (Date_offset (Some T) (- (30 * 60000))) as [lo|] eqn:E1; [|reflexivity].
    destruct (Date_offset (Some T) (30 * 60000)) as [hi|] eqn:E2; [|reflexivity].
    exfalso. apply Hbad. exact (window_of_offsets T lo hi E1 E2).
  - intros T Hd Hw.
    destruct (window_dates T Hw) as [E1 E2].
    unfold_route. rewrite Hd, E1, E2. unfold_route. split.
    + intros f Hf. rewrite Hf. destruct f; reflexivity.
    + intros Hc. rewrite Hc. unfold_route.
      match goal with |- context [0 <? ?n] => destruct (0 <? n) eqn:Hconf end.
      * split; [intros _; reflexivity|].
        intros Hno. apply clash_found in Hconf. destruct Hconf as [a [Ha Hcl]].
        exfalso. exact (Hno a Ha Hcl).
      * split.
        -- intros Hcl. apply clash_found in Hcl. congruence.
        -- intros _. unfold_route. split.
           ++ intros f Hf. rewrite Hf. destruct f; reflexivity.
           ++ intros Hs. rewrite Hs. unfold_route. rewrite Hnone. unfold_route.
              rewrite Hpw. reflexivity.
Qed.

(** C5.  When the appointment insert succeeds and the email dispatch that
    follows fails, both routes still answer 201 with the created
    appointment, and the appointment is in the store they leave. *)
Theorem email_failure_keeps_201
    (sreq : appointment_request) (req : booking_request) (e : env) (b : backend)
    (f : fault) (row : appointment) :
  RESEND_API_KEY e = true ->
  email_fault e = Some f ->
  (In {| ev_call := InsertAppointment row; ev_ok := true |}
      (calls (create_appointment sreq e b)) ->
   sent (create_appointment sreq e b) =
     {| status := 201; json := AppointmentBody row |} /\
   In row (appointments (db_after (create_appointment sreq e b))) /\
   exists m, In {| ev_call := EmailsSend m; ev_ok := false |}
               (calls (create_appointment sreq e b))) /\
  (In {| ev_call := InsertAppointment row; ev_ok := true |}
      (calls (public_book req e b)) ->
   sent (public_book req e b) =
     {| status := 201; json := BookedBody true row |} /\
   In row (appointments (db_after (public_book req e b))) /\
   exists m, In {| ev_call := EmailsSend m; ev_ok := false |}
               (calls (public_book req e b))).
Proof.
  intros Hk Hf. split; revert Hk Hf; run; intros Hk Hf Hin; try congruence;
    pick_event Hin; injection Hin as <-;
    (split; [reflexivity|]);
    (split; [cbn [appointments]; apply in_or_app; right; now left|]);
    eexists; cbn [In]; eauto 8.
Qed.

(** C10.  Every confirmation email either route sends goes from
    onboarding@resend.dev to delivered@resend.dev, whatever the request
    holds. *)
Theorem emails_have_fixed_addresses
    (sreq : appointment_request) (req : booking_request) (e : env) (b : backend)
    (m : email) (ok : bool) :
  In {| ev_call := EmailsSend m; ev_ok := ok |} (calls (create_appointment sreq e b)) \/
  In {| ev_call := EmailsSend m; ev_ok := ok |} (calls (public_book req e b)) ->
  m_from m = "onboarding@resend.dev" /\ m_to m = "delivered@resend.dev".
Proof.
  intros [H|H]; revert H; run; intros H; pick_event H;
    injection H as <- _; split; reflexivity.
Qed.

(** *** Patient identity *)

(** What an accepted booking did: it found the one patient with the contact
    number, or created an account and a patient, and stored one
    appointment for that patient. *)
Lemma public_book_accepted (req : booking_request) (e : env) (b : backend) :
  status (sent (public_book req e b)) = 201 ->
  exists pid,
    let a := {| a_id := generated_appointment_id e;
                a_patient_id := pid;
                a_doctor_name :=
                  formatted_doctor (bk_doctor_name req) (bk_doctor_specialty req);
                a_appointment_date := bk_appointment_date req;
                a_reason := bk_reason req |} in
    json (sent (public_book req e b)) = BookedBody true a /\
    appointments (db_after (public_book req e b)) = (appointments b ++ [a])%list /\
    ((exists p, matching_patients (bk_contact_number req) b = [p] /\ pid = p_id p /\
                patients (db_after (public_book req e b)) = patients b /\
                auth_users (db_after (public_book req e b)) = auth_users b) \/
     (matching_patients (bk_contact_number req) b = [] /\
      pid = generated_patient_id e /\
      patients (db_after (public_book req e b)) =
        (patients b ++
         [ {| p_id := generated_patient_id e; p_name := bk_name req;
              p_age := bk_age req; p_condition := bk_condition req;
              p_status := "Outpatient";
              p_contact_number := bk_contact_number req;
              p_email := bk_email req |} ])%list /\
      auth_users (db_after (public_book req e b)) =
        (auth_users b ++
         [ {| u_id := generated_user_id e; u_email := bk_email req;
              u_password := bk_password req; u_email_confirm := true;
              u_role := "patient"; u_name := bk_name req |} ])%list)).
Proof.
  run; intros H; try discriminate H; eexists; cbn zeta;
    (split; [reflexivity|]); (split; [reflexivity|]);
    solve [ left; eexists; repeat split
          | right; repeat split ].
Qed.

Lemma matching_same_patients (c : string) (b b' : backend) :
  patients b' = patients b -> matching_patients c b' = matching_patients c b.
Proof. unfold matching_patients. now intros ->. Qed.

Lemma matching_after_insert (c : string) (b b' : backend) (row : patient) :
  matching_patients c b = [] ->
  patients b' = (patients b ++ [row])%list ->
  p_contact_number row = c ->
  matching_patients c b' = [row].
Proof.
  unfold matching_patients. intros H -> Hc.
  rewrite filter_app, H. simpl.
  now rewrite (proj2 (String.eqb_eq _ _) Hc).
Qed.

(** C4.  Two successful public bookings in a row with the same contact
    number create at most one patient and at most one account between
    them: the second creates neither, and its appointment carries the
    patient id of the first, the id of a stored patient with that contact
    number. *)
Theorem booking_twice_one_patient
    (req1 req2 : booking_request) (e1 e2 : env) (b : backend) :
  bk_contact_number req2 = bk_contact_number req1 ->
  status (sent (public_book req1 e1 b)) = 201 ->
  status (sent (public_book req2 e2 (db_after (public_book req1 e1 b)))) = 201 ->
  let o1 := public_book req1 e1 b in
  let o2 := public_book req2 e2 (db_after o1) in
  (List.length (patients (db_after o2)) <= List.length (patients b) + 1)%nat /\
  (List.length (auth_users (db_after o2)) <= List.length (auth_users b) + 1)%nat /\
  patients (db_after o2) = patients (db_after o1) /\
  auth_users (db_after o2) = auth_users (db_after o1) /\
  exists a1 a2,
    json (sent o1) = BookedBody true a1 /\
    json (sent o2) = BookedBody true a2 /\
    a_patient_id a2 = a_patient_id a1 /\
    exists p, In p (patients (db_after o1)) /\
              p_contact_number p = bk_contact_number req1 /\
              p_id p = a_patient_id a1.
Proof.
  intros Hc H1 H2 o1 o2.
  destruct (public_book_accepted req1 e1 b H1) as [pid1 [J1 [_ P1]]].
  destruct (public_book_accepted req2 e2 (db_after o1) H2) as [pid2 [J2 [_ P2]]].
  fold o1 in J1, P1. fold o2 in J2, P2. cbn zeta in J1, J2.
  rewrite Hc in P2.
  assert (Hone : exists p, matching_patients (bk_contact_number req1) (db_after o1) = [p]
                           /\ pid1 = p_id p
                           /\ (List.length (patients (db_after o1)) <= List.length (patients b) + 1)%nat
                           /\ (List.length (auth_users (db_after o1)) <= List.length (auth_users b) + 1)%nat).
  { destruct P1 as [[p [Hm [Hp [Hpa Hau]]]]|[Hm [Hp [Hpa Hau]]]].
    - exists p. rewrite (matching_same_patients _ _ _ Hpa), Hpa, Hau.
      repeat split; [exact Hm|exact Hp|lia|lia].
    - eexists. rewrite (matching_after_insert _ _ _ _ Hm Hpa eq_refl), Hpa, Hau.
      rewrite !length_app. cbn [List.length].
      repeat split; [exact Hp|lia|lia]. }
  destruct Hone as [p [Hm [Hp [Lp La]]]].
  destruct P2 as [[q [Hm2 [Hq [Hpa Hau]]]]|[Hm2 _]]; [|congruence].
  rewrite Hm in Hm2. injection Hm2 as <-.
  rewrite Hpa, Hau. repeat split; try assumption.
  eexists. eexists. split; [exact J1|]. split; [exact J2|].
  cbn [a_patient_id]. split; [congruence|].
  exists p.
  assert (Hin : In p (matching_patients (bk_contact_number req1) (db_after o1)))
    by (rewrite Hm; now left).
  apply matching_In in Hin. destruct Hin as [Hin Hcn].
  repeat split; [exact Hin|exact Hcn|congruence].
Qed.


(** *** Dashboard *)

Lemma first_some_all_none {A : Type} (rs : list (option A)) :
  (forall r, In r rs -> r = None) -> first_some rs = None.
Proof.
  induction rs as [|r rs IH]; intros H; [reflexivity|].
  simpl. rewrite (H r (or_introl eq_refl)). apply IH.
  intros r' Hr'. apply H. now right.
Qed.

Lemma first_some_none {A : Type} (rs : list (option A)) (order : list nat) :
  (forall r, In r rs -> r = None) ->
  first_some (map (fun i => nth i rs None) order ++ rs) = None.
Proof.
  intros H. apply first_some_all_none. intros r Hr.
  apply in_app_or in Hr. destruct Hr as [Hr|Hr]; [|now apply H].
  apply in_map_iff in Hr. destruct Hr as [i [<- _]].
  destruct (nth_in_or_default i rs None) as [Hi|Hi]; [now apply H|exact Hi].
Qed.

Lemma Promise_all4_fulfilled {A : Type} (order : list nat) (a b c d : A) :
  Promise_all4 order (Fulfilled a) (Fulfilled b) (Fulfilled c) (Fulfilled d) =
  Fulfilled (a, b, c, d).
Proof.
  unfold Promise_all4. cbn [rejection]. rewrite first_some_none; [reflexivity|].
  intros r Hr. simpl in Hr. intuition congruence.
Qed.

Lemma first_some_app_some {A : Type} (l l' : list (option A)) (x : A) :
  In (Some x) l' -> exists y, first_some (l ++ l') = Some y.
Proof.
  intros H. induction l as [|[a|] l IH]; simpl.
  - induction l' as [|[a|] l' IH]; simpl in *; [contradiction|eauto|].
    destruct H as [H|H]; [discriminate|auto].
  - eauto.
  - exact IH.
Qed.

(** A rejected promise makes [Promise.all] reject. *)
Lemma Promise_all4_rejected {A : Type} (order : list nat) (p1 p2 p3 p4 : settled A)
    (msg : string) :
  In (Rejected msg) [p1; p2; p3; p4] ->
  exists msg', Promise_all4 order p1 p2 p3 p4 = Rejected msg'.
Proof.
  intros H. unfold Promise_all4.
  destruct (first_some_app_some
              (map (fun i => nth i [rejection p1; rejection p2; rejection p3; rejection p4] None) order)
              [rejection p1; rejection p2; rejection p3; rejection p4] msg) as [y ->].
  - simpl in H. simpl.
    destruct H as [->|[->|[->|[->|[]]]]]; simpl; auto.
  - eauto.
Qed.

(** A count query whose promise rejects does make the whole request
    fail with 500. *)
Lemma dashboard_stats_rejection (e : stats_env) (b : backend) (msg : string) :
  patients_answer e = Fails (Rejects msg) \/ doctors_answer e = Fails (Rejects msg) \/
  appointments_answer e = Fails (Rejects msg) \/ today_answer e = Fails (Rejects msg) ->
  status (dashboard_stats e b) = 500.
Proof.
  intros H. unfold_dashboard.
  match goal with
  | |- context [Promise_all4 ?o ?p1 ?p2 ?p3 ?p4] =>
      destruct (Promise_all4_rejected o p1 p2 p3 p4 msg) as [msg' ->];
        [|reflexivity]
  end.
  destruct H as [H|[H|[H|H]]]; rewrite H.
  - now left.
  - right; now left.
  - right; right; now left.
  - right; right; right; left. unfold count_today.
    destruct (Date_parse (iso_date_part (now e)));
      [destruct (Date_parse (iso_date_part (now e + ms_per_day)))|];
      reflexivity.
Qed.

(** C7.  When the four count queries are answered without error, the
    response is 200 and each of its four numbers is the count the backend
    reported, with 0 in place of a count that is missing or zero. *)
Theorem dashboard_stats_counts (e : stats_env) (b : backend) (c1 c2 c3 c4 : option Z) :
  count_query (patients_answer e) (List.length (patients b)) =
    Fulfilled {| count := c1; count_error := None |} ->
  count_query (doctors_answer e) (List.length (doctors b)) =
    Fulfilled {| count := c2; count_error := None |} ->
  count_query (appointments_answer e) (List.length (appointments b)) =
    Fulfilled {| count := c3; count_error := None |} ->
  count_today Date_parse (today_answer e) (iso_date_part (now e))
    (iso_date_part (now e + ms_per_day)) b =
    Fulfilled {| count := c4; count_error := None |} ->
  dashboard_stats e b =
    {| status := 200;
       json := StatsBody (count_or_0 c1) (count_or_0 c2) (count_or_0 c3) (count_or_0 c4) |}.
Proof.
  intros H1 H2 H3 H4. unfold_dashboard.
  rewrite H1, H2, H3, H4, Promise_all4_fulfilled.
  cbn [count]. now rewrite !or_zero_count.
Qed.

(** C6 (the code at the failing input).  A count query that fails the way
    the client reports failures, with an [error] in its reply, does not make
    the request fail: the response is 200 and the failed count reads 0. *)
Theorem dashboard_stats_error_reply_is_200 (t : Z) (order : list nat) (msg : string)
    (b : backend) :
  let e := {| now := t;
              patients_answer := Fails (RepliesError msg);
              doctors_answer := Exact;
              appointments_answer := Exact;
              today_answer := Exact;
              settle_order := order |} in
  status (dashboard_stats e b) = 200 /\
  exists today,
    json (dashboard_stats e b) =
      StatsBody 0 (Z.of_nat (List.length (doctors b)))
                  (Z.of_nat (List.length (appointments b))) today.
Proof.
  intros e. unfold_dashboard; unfold count_today.
  cbn [now patients_answer doctors_answer appointments_answer today_answer
       settle_order e count_query].
  destruct (Date_parse (iso_date_part t));
    [destruct (Date_parse (iso_date_part (t + ms_per_day)))|];
    rewrite Promise_all4_fulfilled; cbn [count];
    rewrite !or_zero_count; (split; [reflexivity|eexists; reflexivity]).
Qed.

End Properties.

(* ================================================================== *)
(** ** The scenario, instances and counterexamples *)
(* ================================================================== *)

(** C9.  On an empty backend whose calls are all answered, the scenario's
    booking at 10:00 is answered 201 with [success: true] and an
    appointment for "Dr Smith (GP)"; the same booking at 10:15 is then
    answered 409. *)
Theorem scenario_book_then_conflict
    (toLocaleString : Z -> string)
    (key1 key2 : bool) (mail1 mail2 : option fault) (u1 p1 a1 u2 p2 a2 : Z) :
  let o1 := public_book iso_utc_parse toLocaleString
              (scenario_request "2024-01-01T10:00:00Z")
              (working key1 mail1 u1 p1 a1) empty_backend in
  let o2 := public_book iso_utc_parse toLocaleString
              (scenario_request "2024-01-01T10:15:00Z")
              (working key2 mail2 u2 p2 a2) (db_after o1) in
  status (sent o1) = 201 /\
  (exists a, json (sent o1) = BookedBody true a /\ a_doctor_name a = "Dr Smith (GP)") /\
  status (sent o2) = 409.
Proof.
  intros o1 o2. subst o1 o2.
  destruct key1; [destruct mail1 as [[m|m]|]|];
    (split; [reflexivity|split; [eexists; split; reflexivity|reflexivity]]).
Qed.

Lemma public_book_clash_rule_witness :
  let req := scenario_request "2024-01-01T10:30:00Z" in
  let e := working true None 10 11 12 in
  let b := booked [smith_at 1 "2024-01-01T10:00:00Z"] in
  new_Date iso_utc_parse (bk_appointment_date req) = Some 1704105000000 /\
  window_valid 1704105000000 /\
  conflict_fault e = None /\
  status (sent (public_book iso_utc_parse date_only_locale req e b)) = 409.
Proof.
  cbv zeta.
  assert (Hw : window_valid 1704105000000) by (unfold window_valid; lia).
  split; [reflexivity|]. split; [exact Hw|]. split; [reflexivity|].
  apply (public_book_clash_rule iso_utc_parse date_only_locale
           (scenario_request "2024-01-01T10:30:00Z") (working true None 10 11 12)
           (booked [smith_at 1 "2024-01-01T10:00:00Z"]) 1704105000000
           eq_refl Hw eq_refl).
  exists (smith_at 1 "2024-01-01T10:00:00Z"). split; [now left|].
  split; [reflexivity|]. exists 1704103200000. split; [reflexivity|lia].
Defined.

(** C1, as stated, fails: (a) with the only appointment of the doctor two
    hours away, a newcomer with a three-character password is answered 400,
    not accepted; (b) with appointments at 10:00 and 12:00, a booking at
    10:15 is answered 409 although the 12:00 appointment is 105 minutes
    away; (c) with an appointment at the requested time itself, a conflict
    query answered with an error gives 500, not 409. *)
Lemma clash_rule_counterexample :
  (let b := booked [smith_at 1 "2024-01-01T10:00:00Z"] in
   let req := newcomer_request "2024-01-01T12:00:00Z" in
   new_Date iso_utc_parse (bk_appointment_date req) = Some 1704110400000 /\
   iso_utc_parse (a_appointment_date (smith_at 1 "2024-01-01T10:00:00Z")) = Some 1704103200000 /\
   ~ Z.abs (1704110400000 - 1704103200000) <= 30 * 60000 /\
   status (sent (public_book iso_utc_parse date_only_locale req
                   (working true None 10 11 12) b)) = 400) /\
  (let b := booked [smith_at 1 "2024-01-01T10:00:00Z"; smith_at 2 "2024-01-01T12:00:00Z"] in
   let req := scenario_request "2024-01-01T10:15:00Z" in
   new_Date iso_utc_parse (bk_appointment_date req) = Some 1704104100000 /\
   In (smith_at 2 "2024-01-01T12:00:00Z") (appointments b) /\
   a_doctor_name (smith_at 2 "2024-01-01T12:00:00Z") =
     formatted_doctor (bk_doctor_name req) (bk_doctor_specialty req) /\
   iso_utc_parse (a_appointment_date (smith_at 2 "2024-01-01T12:00:00Z")) = Some 1704110400000 /\
   ~ Z.abs (1704104100000 - 1704110400000) <= 30 * 60000 /\
   status (sent (public_book iso_utc_parse date_only_locale req
                   (working true None 10 11 12) b)) = 409) /\
  (let b := booked [smith_at 1 "2024-01-01T10:00:00Z"] in
   let req := scenario_request "2024-01-01T10:00:00Z" in
   Z.abs (1704103200000 - 1704103200000) <= 30 * 60000 /\
   status (sent (public_book iso_utc_parse date_only_locale req
                   conflict_query_down b)) = 500).
Proof.
  cbv zeta. repeat split; try reflexivity; try lia.
  right; now left.
Qed.

Lemma clash_check_on_public_book_only_witness :
  let req := scenario_request "2024-01-01T10:15:00Z" in
  let sreq := staff_request "2024-01-01T10:15:00Z" in
  let e := working true None 10 11 12 in
  let b := booked [smith_at 1 "2024-01-01T10:00:00Z"] in
  new_Date iso_utc_parse (bk_appointment_date req) = Some 1704104100000 /\
  (exists a, In a (appointments b) /\ clashes_with iso_utc_parse req 1704104100000 a) /\
  ar_doctor_name sreq = formatted_doctor (bk_doctor_name req) (bk_doctor_specialty req) /\
  ar_appointment_date sreq = bk_appointment_date req /\
  db_after (public_book iso_utc_parse date_only_locale req e b) = b /\
  status (sent (create_appointment iso_utc_parse date_only_locale sreq e b)) = 201.
Proof.
  cbv zeta.
  assert (Hc : exists a, In a (appointments (booked [smith_at 1 "2024-01-01T10:00:00Z"])) /\
                         clashes_with iso_utc_parse (scenario_request "2024-01-01T10:15:00Z")
                           1704104100000 a).
  { exists (smith_at 1 "2024-01-01T10:00:00Z"). split; [now left|].
    split; [reflexivity|]. exists 1704103200000. split; [reflexivity|lia]. }
  split; [reflexivity|]. split; [exact Hc|]. split; [reflexivity|]. split; [reflexivity|].
  destruct (clash_check_on_public_book_only iso_utc_parse date_only_locale
              (scenario_request "2024-01-01T10:15:00Z")
              (staff_request "2024-01-01T10:15:00Z")
              (working true None 10 11 12)
              (booked [smith_at 1 "2024-01-01T10:00:00Z"]) 1704104100000
              eq_refl Hc eq_refl eq_refl) as [[Hdb _] Hstaff].
  split; [exact Hdb|]. exact (proj1 (Hstaff eq_refl)).
Defined.

(** C2, as stated, fails on POST /api/appointments: with Dr Smith (GP)
    booked at 10:00, the staff route stores a second appointment for
    "Dr Smith (GP)" at 10:15, fifteen minutes away, and answers 201. *)
Lemma staff_route_counterexample :
  let b := booked [smith_at 1 "2024-01-01T10:00:00Z"] in
  let o := create_appointment iso_utc_parse date_only_locale
             (staff_request "2024-01-01T10:15:00Z") (working true None 10 11 12) b in
  status (sent o) = 201 /\
  appointments (db_after o) =
    [smith_at 1 "2024-01-01T10:00:00Z"; smith_at 12 "2024-01-01T10:15:00Z"] /\
  iso_utc_parse "2024-01-01T10:00:00Z" = Some 1704103200000 /\
  iso_utc_parse "2024-01-01T10:15:00Z" = Some 1704104100000 /\
  Z.abs (1704104100000 - 1704103200000) <= 30 * 60000.
Proof.
  cbv zeta. repeat split; try reflexivity. lia.
Qed.

Lemma short_password_creates_nothing_witness :
  let req := short_unicode_request "2024-01-01T12:00:00Z" in
  let e := working true None 10 11 12 in
  let b := booked [smith_at 1 "2024-01-01T10:00:00Z"] in
  (forall p, In p (patients b) -> p_contact_number p <> bk_contact_number req) /\
  absent_or_short (bk_password req) /\
  db_after (public_book iso_utc_parse date_only_locale req e b) = b /\
  sent (public_book iso_utc_parse date_only_locale req e b) =
    {| status := 400;
       json := ErrorBody "Password must be at least 6 characters long" |}.
Proof.
  cbv zeta.
  assert (Hn : forall p, In p (patients (booked [smith_at 1 "2024-01-01T10:00:00Z"])) ->
                         p_contact_number p <>
                         bk_contact_number (short_unicode_request "2024-01-01T12:00:00Z")).
  { intros p [<-|[]]. discriminate. }
  assert (Hs : absent_or_short
                 (bk_password (short_unicode_request "2024-01-01T12:00:00Z"))).
  { right. exists "日本語". split; [reflexivity|]. vm_compute. lia. }
  assert (Hw : window_valid 1704110400000) by (unfold window_valid; lia).
  assert (Hno : forall a,
            In a (appointments (booked [smith_at 1 "2024-01-01T10:00:00Z"])) ->
            ~ clashes_with iso_utc_parse
                (short_unicode_request "2024-01-01T12:00:00Z") 1704110400000 a).
  { intros a [<-|[]] [_ [T' [HT Hnear]]].
    vm_compute in HT. injection HT as <-. lia. }
  split; [exact Hn|]. split; [exact Hs|].
  destruct (short_password_creates_nothing iso_utc_parse date_only_locale
              (short_unicode_request "2024-01-01T12:00:00Z") (working true None 10 11 12)
              (booked [smith_at 1 "2024-01-01T10:00:00Z"]) Hn Hs)
    as [Hdb [_ [_ [_ Hans]]]].
  split; [exact Hdb|].
  destruct (Hans 1704110400000 eq_refl Hw) as [_ Hc].
  destruct (Hc eq_refl) as [_ Hfree].
  destruct (Hfree Hno) as [_ H400].
  exact (H400 eq_refl).
Defined.

(** C3, as stated, fails: a newcomer with a three-character password who
    asks for a slot 15 minutes from a stored appointment is answered 409,
    not 400. *)
Lemma short_password_counterexample :
  let b := booked [smith_at 1 "2024-01-01T10:00:00Z"] in
  let req := newcomer_request "2024-01-01T10:15:00Z" in
  matching_patients (bk_contact_number req) b = [] /\
  bk_password req = JSstring "abc" /\
  status (sent (public_book iso_utc_parse date_only_locale req
                  (working true None 10 11 12) b)) = 409.
Proof.
  cbv zeta. repeat split.
Qed.

Lemma booking_twice_one_patient_witness :
  let req1 := scenario_request "2024-01-01T10:00:00Z" in
  let req2 := scenario_request "2024-01-01T11:00:00Z" in
  let e1 := working true None 10 11 12 in
  let e2 := working true None 20 21 22 in
  let o1 := public_book iso_utc_parse date_only_locale req1 e1 empty_backend in
  let o2 := public_book iso_utc_parse date_only_locale req2 e2 (db_after o1) in
  bk_contact_number req2 = bk_contact_number req1 /\
  status (sent o1) = 201 /\
  status (sent o2) = 201 /\
  patients (db_after o2) = patients (db_after o1).
Proof.
  cbv zeta. split; [reflexivity|]. split; [reflexivity|]. split; [reflexivity|].
  exact (proj1 (proj2 (proj2
    (booking_twice_one_patient iso_utc_parse date_only_locale
       (scenario_request "2024-01-01T10:00:00Z") (scenario_request "2024-01-01T11:00:00Z")
       (working true None 10 11 12) (working true None 20 21 22) empty_backend
       eq_refl eq_refl eq_refl)))).
Defined.

Lemma email_failure_keeps_201_witness :
  let sreq := staff_request "2024-01-01T10:00:00Z" in
  let req := scenario_request "2024-01-01T10:00:00Z" in
  let e := working true email_down 10 1 12 in
  RESEND_API_KEY e = true /\
  email_fault e = email_down /\
  sent (create_appointment iso_utc_parse date_only_locale sreq e empty_backend) =
    {| status := 201; json := AppointmentBody (smith_at 12 "2024-01-01T10:00:00Z") |} /\
  sent (public_book iso_utc_parse date_only_locale req e empty_backend) =
    {| status := 201; json := BookedBody true (smith_at 12 "2024-01-01T10:00:00Z") |}.
Proof.
  cbv zeta. split; [reflexivity|]. split; [reflexivity|].
  destruct (email_failure_keeps_201 iso_utc_parse date_only_locale
              (staff_request "2024-01-01T10:00:00Z")
              (scenario_request "2024-01-01T10:00:00Z")
              (working true email_down 10 1 12) empty_backend
              (Rejects "Unable to reach the email service")
              (smith_at 12 "2024-01-01T10:00:00Z") eq_refl eq_refl) as [Hs Hp].
  split.
  - refine (proj1 (Hs _)). left. reflexivity.
  - refine (proj1 (Hp _)). vm_compute. do 4 right. left. reflexivity.
Defined.

Lemma dashboard_stats_counts_witness :
  let e := stats_at_ten Exact NoCount in
  let b := booked [smith_at 1 "2024-01-01T10:00:00Z"] in
  count_query (patients_answer e) (List.length (patients b)) =
    Fulfilled {| count := Some 1; count_error := None |} /\
  count_query (doctors_answer e) (List.length (doctors b)) =
    Fulfilled {| count := None; count_error := None |} /\
  count_query (appointments_answer e) (List.length (appointments b)) =
    Fulfilled {| count := Some 1; count_error := None |} /\
  count_today iso_utc_parse (today_answer e) (iso_date_part (now e))
    (iso_date_part (now e + ms_per_day)) b =
    Fulfilled {| count := Some 1; count_error := None |} /\
  dashboard_stats iso_utc_parse e b = {| status := 200; json := StatsBody 1 0 1 1 |}.
Proof.
  cbv zeta. repeat (split; [reflexivity|]).
  exact (dashboard_stats_counts iso_utc_parse (stats_at_ten Exact NoCount)
           (booked [smith_at 1 "2024-01-01T10:00:00Z"])
           (Some 1) None (Some 1) (Some 1) eq_refl eq_refl eq_refl eq_refl).
Defined.


Lemma emails_have_fixed_addresses_witness :
  let sreq := staff_request "2024-01-01T10:00:00Z" in
  let req := scenario_request "2024-01-01T10:00:00Z" in
  let e := working true None 10 11 12 in
  let m := booking_email iso_utc_parse date_only_locale "A" "Dr Smith" "GP"
             "2024-01-01T10:00:00Z" in
  (In {| ev_call := EmailsSend m; ev_ok := true |}
      (calls (create_appointment iso_utc_parse date_only_locale sreq e empty_backend)) \/
   In {| ev_call := EmailsSend m; ev_ok := true |}
      (calls (public_book iso_utc_parse date_only_locale req e empty_backend))) /\
  m_from m = "onboarding@resend.dev" /\ m_to m = "delivered@resend.dev".
Proof.
  cbv zeta.
  assert (Hin :
    In {| ev_call := EmailsSend (booking_email iso_utc_parse date_only_locale
                                   "A" "Dr Smith" "GP" "2024-01-01T10:00:00Z");
          ev_ok := true |}
       (calls (create_appointment iso_utc_parse date_only_locale
                 (staff_request "2024-01-01T10:00:00Z")
                 (working true None 10 11 12) empty_backend)) \/
    In {| ev_call := EmailsSend (booking_email iso_utc_parse date_only_locale
                                   "A" "Dr Smith" "GP" "2024-01-01T10:00:00Z");
          ev_ok := true |}
       (calls (public_book iso_utc_parse date_only_locale
                 (scenario_request "2024-01-01T10:00:00Z")
                 (working true None 10 11 12) empty_backend))).
  { right. do 5 right. left. reflexivity. }
  split; [exact Hin|].
  exact (emails_have_fixed_addresses iso_utc_parse date_only_locale _ _ _ _ _ _ Hin).
Defined.

(** C6 at a concrete input: the patients count is answered with the error
    "permission denied"; the response is 200 with [totalPatients: 0]. *)
Example dashboard_stats_permission_denied :
  dashboard_stats iso_utc_parse
    (stats_at_ten (Fails (RepliesError "permission denied")) Exact)
    (booked [smith_at 1 "2024-01-01T10:00:00Z"]) =
  {| status := 200; json := StatsBody 0 0 1 1 |}.
Proof. reflexivity. Qed.

(* ================================================================== *)
(** ** Further properties of the routes *)
(* ================================================================== *)

(** *** Sorting and lookup facts for the list routes *)

Lemma insert_by_perm {A : Type} (leb : A -> A -> bool) (x : A) (l : list A) :
  Permutation (insert_by leb x l) (x :: l).
Proof.
  induction l as [|y l IH]; simpl; [reflexivity|].
  destruct (leb x y); [reflexivity|].
  rewrite IH. apply perm_swap.
Qed.

Lemma order_by_perm {A : Type} (leb : A -> A -> bool) (l : list A) :
  Permutation (order_by leb l) l.
Proof.
  induction l as [|x l IH]; simpl; [reflexivity|].
  rewrite insert_by_perm. now apply perm_skip.
Qed.

Lemma insert_by_sorted {A : Type} (leb : A -> A -> bool) (x : A) (l : list A) :
  (forall u v, leb u v = true \/ leb v u = true) ->
  Sorted (fun u v => leb u v = true) l ->
  Sorted (fun u v => leb u v = true) (insert_by leb x l).
Proof.
  intros Htot Hs. induction Hs as [|y l Hs IH Hhd]; simpl.
  - repeat constructor.
  - destruct (leb x y) eqn:Hxy.
    + constructor; [now constructor|]. now constructor.
    + constructor; [exact IH|].
      destruct l as [|z l]; simpl.
      * constructor. destruct (Htot x y); congruence.
      * destruct (leb x z).
        -- constructor. destruct (Htot x y); congruence.
        -- inversion Hhd; subst. now constructor.
Qed.

Lemma order_by_sorted {A : Type} (leb : A -> A -> bool) (l : list A) :
  (forall u v, leb u v = true \/ leb v u = true) ->
  Sorted (fun u v => leb u v = true) (order_by leb l).
Proof.
  intros Htot. induction l as [|x l IH]; simpl; [constructor|].
  now apply insert_by_sorted.
Qed.

Lemma order_by_strongly_sorted {A : Type} (leb : A -> A -> bool) (l : list A) :
  (forall u v, leb u v = true \/ leb v u = true) ->
  (forall u v w, leb u v = true -> leb v w = true -> leb u w = true) ->
  StronglySorted (fun u v => leb u v = true) (order_by leb l).
Proof.
  intros Htot Htr. apply Sorted_StronglySorted.
  - intros u v w. apply Htr.
  - now apply order_by_sorted.
Qed.

Lemma date_leb_total (x y : option Z) : date_leb x y = true \/ date_leb y x = true.
Proof.
  destruct x as [s|], y as [t|]; simpl; auto.
  destruct (Z.leb_spec s t); [now left|right]. apply Z.leb_le. lia.
Qed.

Lemma date_leb_trans (x y z : option Z) :
  date_leb x y = true -> date_leb y z = true -> date_leb x z = true.
Proof.
  destruct x as [r|], y as [s|], z as [t|]; simpl; try congruence.
  rewrite !Z.leb_le. lia.
Qed.

Lemma same_key_same_row {A : Type} (f : A -> Z) (l : list A) (x y : A) :
  NoDup (map f l) -> In x l -> In y l -> f x = f y -> x = y.
Proof.
  induction l as [|z l IH]; simpl; [contradiction|].
  intros Hnd [->|Hx] [->|Hy] Hf; inversion Hnd; subst.
  - reflexivity.
  - exfalso. match goal with H : ~ In _ _ |- _ => apply H end.
    rewrite Hf. now apply in_map.
  - exfalso. match goal with H : ~ In _ _ |- _ => apply H end.
    rewrite <- Hf. now apply in_map.
  - now apply IH.
Qed.

(** The embedded patient of a listed row is the patient its [patient_id]
    names, [null] when there is none. *)
Lemma embed_patient_spec (b : backend) (a : appointment) :
  match ap_patients (embed_patient b a) with
  | Some (name, contact_number) =>
      exists p, In p (patients b) /\ p_id p = a_patient_id a /\
                name = p_name p /\ contact_number = p_contact_number p
  | None => forall p, In p (patients b) -> p_id p <> a_patient_id a
  end.
Proof.
  unfold embed_patient. cbn [ap_patients].
  destruct (find (fun p => p_id p =? a_patient_id a) (patients b)) as [p|] eqn:Hf.
  - apply find_some in Hf. destruct Hf as [Hin Heq]. apply Z.eqb_eq in Heq.
    exists p. repeat split; assumption.
  - intros p Hin Heq. apply (find_none _ _ Hf) in Hin.
    apply Z.eqb_neq in Hin. contradiction.
Qed.

Lemma embed_patient_found (b : backend) (a : appointment) (p : patient) :
  NoDup (map p_id (patients b)) ->
  In p (patients b) ->
  p_id p = a_patient_id a ->
  embed_patient b a =
    {| ap_appointment := a; ap_patients := Some (p_name p, p_contact_number p) |}.
Proof.
  intros Hnd Hin Hid. unfold embed_patient.
  destruct (find (fun q => p_id q =? a_patient_id a) (patients b)) as [q|] eqn:Hf.
  - apply find_some in Hf. destruct Hf as [Hq Heq]. apply Z.eqb_eq in Heq.
    assert (q = p) by (apply (same_key_same_row p_id (patients b)); congruence).
    now subst q.
  - apply (find_none _ _ Hf) in Hin. apply Z.eqb_neq in Hin. contradiction.
Qed.


Lemma two_matching_rows (c : string) (b : backend) :
  (2 <= List.length (matching_patients c b))%nat ->
  exists p q l, matching_patients c b = p :: q :: l.
Proof.
  destruct (matching_patients c b) as [|p [|q l]]; simpl; try lia.
  intros _. now exists p, q, l.
Qed.

Lemma truthy_nonstring_accepted (password : jsvalue) :
  password = JSbool true \/ (exists n, n <> 0 /\ password = JSnumber n) ->
  password_rejected password = false.
Proof.
  intros [->|[n [Hn ->]]]; [reflexivity|].
  unfold password_rejected. simpl.
  destruct (Z.eqb_spec n 0); [contradiction|reflexivity].
Qed.

Section MoreProperties.

Variable created_at : patient -> Z.
Variable Date_parse : string -> option Z.
Variable toLocaleString : Z -> string.

Ltac unfold_run :=
  cbv beta iota zeta delta
    [public_book create_appointment create_patient route handler bind try_catch
     select_conflicts select_patient createUser insert_patient
     insert_appointment emails_send service_call or_throw toISOString
     getenv ret throw respond is_data sent db_after calls app status json
     answer store made code content].

Ltac next_case :=
  match goal with
  | |- context [match ?x with _ => _ end] =>
      lazymatch x with
      | context [match _ with _ => _ end] => fail
      | _ => destruct x eqn:?
      end
  end.

Ltac exec := unfold_run; repeat (next_case; unfold_run).

Ltac env_fields :=
  cbn [RESEND_API_KEY conflict_fault search_fault auth_fault patient_fault
       appointment_fault email_fault generated_user_id generated_patient_id
       generated_appointment_id].

Ltac find_event H :=
  cbn [In] in H;
  repeat (destruct H as [H|H]; [try discriminate H|]);
  try contradiction.

Local Abbreviation public_book := (public_book Date_parse toLocaleString).
Local Abbreviation create_appointment := (create_appointment Date_parse toLocaleString).
Local Abbreviation dashboard_stats := (dashboard_stats Date_parse).
Local Abbreviation new_Date := (new_Date Date_parse).
Local Abbreviation in_window := (in_window Date_parse).
Local Abbreviation clashes_with := (clashes_with Date_parse).
Local Abbreviation list_appointments := (list_appointments Date_parse).
Local Abbreviation list_patients := (list_patients created_at).

(** *** Public booking: errors and partial effects *)

(** X1.  A requested time that is not a date whose 30 minute window is
    valid ends the request at once: 500 "Invalid time value", no call to
    any service, nothing stored. *)
Theorem public_book_invalid_date (req : booking_request) (e : env) (b : backend) :
  (forall T, new_Date (bk_appointment_date req) = Some T -> ~ window_valid T) ->
  public_book req e b =
    {| sent := {| status := 500; json := ErrorBody "Invalid time value" |};
       db_after := b;
       calls := [] |}.
Proof.
  intros H. unfold_run.
  destruct (new_Date (bk_appointment_date req)) as [T|] eqn:Hd; [|reflexivity].
  specialize (H T eq_refl).
  destruct (Date_offset (Some T) (- (30 * 60000))) as [lo|] eqn:E1; [|reflexivity].
  destruct (Date_offset (Some T) (30 * 60000)) as [hi|] eqn:E2; [|reflexivity].
  exfalso. apply H. exact (window_of_offsets T lo hi E1 E2).
Qed.

(** X2.  Public booking answers 201 with [{ success: true, appointment }]
    exactly when it stored that appointment, as the last row; every other
    answer is a 400, 409 or 500 with an [error] message and leaves the
    appointments as they were. *)
Theorem public_book_answers (req : booking_request) (e : env) (b : backend) :
  (status (sent (public_book req e b)) = 201 /\
   exists a,
     json (sent (public_book req e b)) = BookedBody true a /\
     appointments (db_after (public_book req e b)) = (appointments b ++ [a])%list /\
     In {| ev_call := InsertAppointment a; ev_ok := true |} (calls (public_book req e b))) \/
  ((status (sent (public_book req e b)) = 400 \/
    status (sent (public_book req e b)) = 409 \/
    status (sent (public_book req e b)) = 500) /\
   (exists msg, json (sent (public_book req e b)) = ErrorBody msg) /\
   appointments (db_after (public_book req e b)) = appointments b /\
   forall a, ~ In {| ev_call := InsertAppointment a; ev_ok := true |}
                  (calls (public_book req e b))).
Proof.
  exec;
    first
      [ left; split; [reflexivity|]; eexists;
        split; [reflexivity|]; split; [reflexivity|]; cbn [In]; auto 8
      | right; split; [auto|]; split; [eexists; reflexivity|];
        split; [reflexivity|]; intros a Ha; find_event Ha ].
Qed.

(** X3.  Public booking only appends: the rows stored before stay as they
    are, doctors are untouched, and one request adds at most one account,
    at most one appointment, and a patient only along with an account. *)
Theorem public_book_only_appends (req : booking_request) (e : env) (b : backend) :
  exists us ps aps,
    auth_users (db_after (public_book req e b)) = (auth_users b ++ us)%list /\
    patients (db_after (public_book req e b)) = (patients b ++ ps)%list /\
    appointments (db_after (public_book req e b)) = (appointments b ++ aps)%list /\
    doctors (db_after (public_book req e b)) = doctors b /\
    (List.length us <= 1)%nat /\
    (List.length ps <= List.length us)%nat /\
    (List.length aps <= 1)%nat.
Proof.
  exec; do 3 eexists; cbn [auth_users patients appointments doctors];
    repeat split;
    first [ reflexivity | symmetry; apply app_nil_r | simpl; lia ].
Qed.

(** X4.  No rollback: when the account was created and the booking then
    fails, the answer is 500, the account stays in the store and no
    appointment is stored.  If it is the patient insert that failed, no
    patient is stored; if the patient insert was answered (so the
    appointment insert failed), the inserted patient stays in the store as
    the last patient, with the submitted fields, status "Outpatient" and
    the generated id. *)
Theorem public_book_keeps_account_on_failure
    (req : booking_request) (e : env) (b : backend) (u : auth_user) :
  In {| ev_call := CreateUser u; ev_ok := true |} (calls (public_book req e b)) ->
  status (sent (public_book req e b)) <> 201 ->
  status (sent (public_book req e b)) = 500 /\
  auth_users (db_after (public_book req e b)) = (auth_users b ++ [u])%list /\
  appointments (db_after (public_book req e b)) = appointments b /\
  match patient_fault e with
  | Some f =>
      patients (db_after (public_book req e b)) = patients b /\
      json (sent (public_book req e b)) = ErrorBody (message_of f)
  | None =>
      let row := {| p_id := generated_patient_id e; p_name := bk_name req;
                    p_age := bk_age req; p_condition := bk_condition req;
                    p_status := "Outpatient";
                    p_contact_number := bk_contact_number req;
                    p_email := bk_email req |} in
      patients (db_after (public_book req e b)) = (patients b ++ [row])%list /\
      In {| ev_call := InsertPatient row; ev_ok := true |}
         (calls (public_book req e b)) /\
      exists f, appointment_fault e = Some f /\
                json (sent (public_book req e b)) = ErrorBody (message_of f)
  end.
Proof.
  exec; intros Hin Hst; find_event Hin; try congruence;
    injection Hin as <-; cbn [auth_users patients appointments];
    (split; [reflexivity|]); (split; [reflexivity|]); (split; [reflexivity|]);
    cbn zeta;
    first [ split; reflexivity
          | split; [reflexivity|]; split; [cbn [In]; auto 8|];
            eexists; split; reflexivity ].
Qed.

(** X5.  A failed account creation ends the booking with 500 and nothing
    stored: no patient or appointment insert is attempted.  An error in the
    reply is reported as "Failed to create user account: " followed by its
    message. *)
Theorem public_book_account_failure
    (req : booking_request) (e : env) (b : backend) (u : auth_user) :
  In {| ev_call := CreateUser u; ev_ok := false |} (calls (public_book req e b)) ->
  status (sent (public_book req e b)) = 500 /\
  db_after (public_book req e b) = b /\
  (forall ev, In ev (calls (public_book req e b)) ->
              is_query (ev_call ev) = true \/
              ev = {| ev_call := CreateUser u; ev_ok := false |}) /\
  (forall msg, auth_fault e = Some (RepliesError msg) ->
               json (sent (public_book req e b)) =
                 ErrorBody ("Failed to create user account: " ++ msg)).
Proof.
  exec; intros Hin; find_event Hin; injection Hin as <-;
    (split; [reflexivity|]); (split; [reflexivity|]);
    (split; [intros ev Hev; find_event Hev; subst ev; auto|]);
    intros msg' Hm; congruence.
Qed.

(** X6.  A confirmation email is dispatched only when the email key is
    configured and only after the appointment was stored: the request that
    sends one answers 201 and its appointment is in the store. *)
Theorem email_only_after_insert
    (sreq : appointment_request) (req : booking_request) (e : env) (b : backend)
    (o : outcome) (m : email) (ok : bool) :
  o = create_appointment sreq e b \/ o = public_book req e b ->
  In {| ev_call := EmailsSend m; ev_ok := ok |} (calls o) ->
  RESEND_API_KEY e = true /\
  status (sent o) = 201 /\
  exists a, In {| ev_call := InsertAppointment a; ev_ok := true |} (calls o) /\
            In a (appointments (db_after o)).
Proof.
  intros [->| ->]; exec; intros Hin; find_event Hin;
    (split; [reflexivity|]); (split; [reflexivity|]);
    eexists; (split; [cbn [In]; auto 8|]);
    cbn [appointments]; apply in_or_app; right; now left.
Qed.

(** X7.  The email configuration never shows in the answer or in the
    store: with another key setting and another email outcome both routes
    send the same response and leave the same backend. *)
Theorem email_setup_never_changes_outcome
    (sreq : appointment_request) (req : booking_request) (e : env) (b : backend)
    (key : bool) (mail : option fault) :
  sent (public_book req (with_email key mail e) b) = sent (public_book req e b) /\
  db_after (public_book req (with_email key mail e) b) = db_after (public_book req e b) /\
  sent (create_appointment sreq (with_email key mail e) b) =
    sent (create_appointment sreq e b) /\
  db_after (create_appointment sreq (with_email key mail e) b) =
    db_after (create_appointment sreq e b).
Proof.
  destruct e as [k cf sf af pf apf ef uid pid aid]. unfold with_email.
  repeat split; unfold_run; env_fields;
    repeat (next_case; unfold_run; env_fields); reflexivity.
Qed.

(** X8.  The password check only stops falsy values and short strings: for
    a new contact number whose lookup was answered, a password that is
    [true] or a non-zero number is not answered 400; the account creation
    is called with it. *)
Theorem public_book_nonstring_password
    (req : booking_request) (e : env) (b : backend) :
  matching_patients (bk_contact_number req) b = [] ->
  In {| ev_call := SelectPatient (bk_contact_number req); ev_ok := true |}
     (calls (public_book req e b)) ->
  bk_password req = JSbool true \/
  (exists n, n <> 0 /\ bk_password req = JSnumber n) ->
  status (sent (public_book req e b)) <> 400 /\
  exists u ok,
    In {| ev_call := CreateUser u; ev_ok := ok |} (calls (public_book req e b)) /\
    u_password u = bk_password req.
Proof.
  intros Hm Hin Hpw. apply truthy_nonstring_accepted in Hpw.
  revert Hm Hin Hpw.
  exec; intros Hm Hin Hpw; try congruence; find_event Hin;
    (split; [discriminate|]); do 2 eexists;
    (split; [cbn [In]; auto 8|reflexivity]).
Qed.

(** *** How stored appointments block later bookings *)

Lemma public_book_clash_409 (req : booking_request) (e : env) (b : backend) (T : Z) :
  new_Date (bk_appointment_date req) = Some T ->
  window_valid T ->
  conflict_fault e = None ->
  (exists a, In a (appointments b) /\ clashes_with req T a) ->
  status (sent (public_book req e b)) = 409 /\
  db_after (public_book req e b) = b.
Proof.
  intros Hd Hw Hc Hclash.
  destruct (window_dates T Hw) as [E1 E2].
  apply (clash_found Date_parse) in Hclash.
  unfold_run. rewrite Hd, E1, E2. unfold_run. rewrite Hc. unfold_run.
  rewrite Hclash. split; reflexivity.
Qed.

(** X9.  A booked slot blocks: after a public booking was accepted, a later
    public booking for the same doctor name and specialty at a time within
    30 minutes of it is answered 409 and stores nothing, whoever asks and
    whatever else was stored. *)
Theorem booked_slot_blocks
    (req1 req2 : booking_request) (e1 e2 : env) (b : backend) (T1 T2 : Z) :
  status (sent (public_book req1 e1 b)) = 201 ->
  bk_doctor_name req2 = bk_doctor_name req1 ->
  bk_doctor_specialty req2 = bk_doctor_specialty req1 ->
  Date_parse (bk_appointment_date req1) = Some T1 ->
  new_Date (bk_appointment_date req2) = Some T2 ->
  window_valid T2 ->
  Z.abs (T2 - T1) <= 30 * 60000 ->
  conflict_fault e2 = None ->
  status (sent (public_book req2 e2 (db_after (public_book req1 e1 b)))) = 409 /\
  db_after (public_book req2 e2 (db_after (public_book req1 e1 b))) =
    db_after (public_book req1 e1 b).
Proof.
  intros H1 Hn Hs HT1 HT2 Hw Hnear Hc.
  destruct (public_book_accepted Date_parse toLocaleString req1 e1 b H1)
    as [pid [_ [Happ _]]].
  cbn zeta in Happ.
  apply (public_book_clash_409 req2 e2 _ T2 HT2 Hw Hc).
  eexists. split.
  - rewrite Happ. apply in_or_app. right. left. reflexivity.
  - split; [cbn [a_doctor_name]; now rewrite Hn, Hs|].
    exists T1. split; [exact HT1|exact Hnear].
Qed.

(** X10.  An appointment stored through POST /api/appointments blocks
    public booking as well, provided its doctor name is the formatted
    "Name (Specialty)" of the booking: a public booking within 30 minutes of
    it is answered 409. *)
Theorem staff_appointment_blocks_public
    (sreq : appointment_request) (req : booking_request) (e1 e2 : env)
    (b : backend) (T1 T2 : Z) :
  status (sent (create_appointment sreq e1 b)) = 201 ->
  ar_doctor_name sreq =
    formatted_doctor (bk_doctor_name req) (bk_doctor_specialty req) ->
  Date_parse (ar_appointment_date sreq) = Some T1 ->
  new_Date (bk_appointment_date req) = Some T2 ->
  window_valid T2 ->
  Z.abs (T2 - T1) <= 30 * 60000 ->
  conflict_fault e2 = None ->
  status (sent (public_book req e2 (db_after (create_appointment sreq e1 b)))) = 409 /\
  db_after (public_book req e2 (db_after (create_appointment sreq e1 b))) =
    db_after (create_appointment sreq e1 b).
Proof.
  intros H1 Hn HT1 HT2 Hw Hnear Hc.
  apply (public_book_clash_409 req e2 _ T2 HT2 Hw Hc).
  exists {| a_id := generated_appointment_id e1;
            a_patient_id := ar_patient_id sreq;
            a_doctor_name := ar_doctor_name sreq;
            a_appointment_date := ar_appointment_date sreq;
            a_reason := ar_reason sreq |}.
  split.
  - revert H1. exec; intros H1; try discriminate H1;
      cbn [appointments]; apply in_or_app; right; now left.
  - split; [exact Hn|]. exists T1. split; [exact HT1|exact Hnear].
Qed.

(** *** Contact numbers held by several patients *)

Lemma several_matching_unchanged
    (req : booking_request) (e : env) (b : backend) :
  (2 <= List.length (matching_patients (bk_contact_number req) b))%nat ->
  db_after (public_book req e b) = b /\
  (status (sent (public_book req e b)) = 409 \/
   status (sent (public_book req e b)) = 500).
Proof.
  intros H2. apply two_matching_rows in H2. destruct H2 as [p [q [l Hm]]].
  split.
  - revert Hm. exec; intros; congruence.
  - revert Hm. exec; intros; try congruence; auto.
Qed.

(** X11.  When two or more patients hold the submitted contact number,
    public booking can neither book nor register: it stores nothing, makes
    only the two lookups and answers 409 or 500; a request that passes the
    clash check is answered 500 with the lookup's "multiple rows" error. *)
Theorem duplicate_contact_blocks_booking
    (req : booking_request) (e : env) (b : backend) :
  (2 <= List.length (matching_patients (bk_contact_number req) b))%nat ->
  db_after (public_book req e b) = b /\
  (status (sent (public_book req e b)) = 409 \/
   status (sent (public_book req e b)) = 500) /\
  (forall ev, In ev (calls (public_book req e b)) -> is_query (ev_call ev) = true) /\
  (forall T,
     new_Date (bk_appointment_date req) = Some T ->
     window_valid T ->
     conflict_fault e = None ->
     search_fault e = None ->
     (forall a, In a (appointments b) -> ~ clashes_with req T a) ->
     sent (public_book req e b) =
       {| status := 500;
          json := ErrorBody "JSON object requested, multiple (or no) rows returned" |}).
Proof.
  intros H2. destruct (several_matching_unchanged req e b H2) as [Hdb Hst].
  apply two_matching_rows in H2. destruct H2 as [p [q [l Hm]]].
  split; [exact Hdb|]. split; [exact Hst|]. split.
  - revert Hm. clear Hdb Hst.
    exec; intros Hm ev Hev; try congruence; find_event Hev; subst ev; reflexivity.
  - intros T Hd Hw Hc Hs Hno. clear Hdb Hst.
    destruct (window_dates T Hw) as [E1 E2].
    unfold_run. rewrite Hd, E1, E2. unfold_run. rewrite Hc. unfold_run.
    match goal with |- context [0 <? ?n] => destruct (0 <? n) eqn:Hconf end.
    + apply (clash_found Date_parse) in Hconf. destruct Hconf as [a [Ha Hcl]].
      exfalso. exact (Hno a Ha Hcl).
    + unfold_run. rewrite Hs. unfold_run. rewrite Hm. reflexivity.
Qed.

Lemma public_book_doctors (req : booking_request) (e : env) (b : backend) :
  doctors (db_after (public_book req e b)) = doctors b.
Proof. exec; reflexivity. Qed.

(** *** The staff route *)

(** X14.  POST /api/appointments answers by the insert alone.  If the
    backend takes the row, the answer is 201 with the submitted patient id,
    doctor name, time and reason and the generated id, stored as the last
    appointment, whatever the email does; no clash, patient or date check
    is made.  If the insert fails either way, the answer is 500 with its
    message, nothing is stored and no email is sent. *)
Theorem create_appointment_outcome (sreq : appointment_request) (e : env) (b : backend) :
  let row := {| a_id := generated_appointment_id e;
                a_patient_id := ar_patient_id sreq;
                a_doctor_name := ar_doctor_name sreq;
                a_appointment_date := ar_appointment_date sreq;
                a_reason := ar_reason sreq |} in
  match appointment_fault e with
  | None =>
      sent (create_appointment sreq e b) =
        {| status := 201; json := AppointmentBody row |} /\
      db_after (create_appointment sreq e b) =
        {| patients := patients b; doctors := doctors b;
           appointments := appointments b ++ [row];
           auth_users := auth_users b |}
  | Some f =>
      sent (create_appointment sreq e b) =
        {| status := 500; json := ErrorBody (message_of f) |} /\
      db_after (create_appointment sreq e b) = b /\
      calls (create_appointment sreq e b) =
        [ {| ev_call := InsertAppointment row; ev_ok := false |} ]
  end.
Proof.
  intros row. subst row. exec; repeat split.
Qed.

(** *** Patients created through POST /api/patients *)

Lemma create_patient_created (preq : patient_request) (e : env) (b : backend) :
  code (answer (create_patient preq e b)) = 201 ->
  let row := {| p_id := generated_patient_id e; p_name := pr_name preq;
                p_age := pr_age preq; p_condition := pr_condition preq;
                p_status := pr_status preq;
                p_contact_number := pr_contact_number preq;
                p_email := pr_email preq |} in
  content (answer (create_patient preq e b)) = Json row /\
  patients (store (create_patient preq e b)) = (patients b ++ [row])%list /\
  doctors (store (create_patient preq e b)) = doctors b /\
  appointments (store (create_patient preq e b)) = appointments b /\
  auth_users (store (create_patient preq e b)) = auth_users b.
Proof.
  exec; intros H; try discriminate H; repeat split.
Qed.

(** X15.  A patient created through POST /api/patients comes back with
    the submitted fields and the generated id, and GET /api/patients then
    lists it together with every patient stored before, each once. *)
Theorem created_patient_is_listed (preq : patient_request) (e : env) (b : backend) :
  code (answer (create_patient preq e b)) = 201 ->
  let row := {| p_id := generated_patient_id e; p_name := pr_name preq;
                p_age := pr_age preq; p_condition := pr_condition preq;
                p_status := pr_status preq;
                p_contact_number := pr_contact_number preq;
                p_email := pr_email preq |} in
  content (answer (create_patient preq e b)) = Json row /\
  exists rows,
    list_patients None (store (create_patient preq e b)) =
      {| code := 200; content := Json rows |} /\
    Permutation rows (row :: patients b).
Proof.
  intros H row.
  destruct (create_patient_created preq e b H) as [Hc [Hp _]].
  split; [exact Hc|]. eexists. split; [reflexivity|].
  rewrite order_by_perm, Hp. symmetry. apply Permutation_cons_append.
Qed.

(** X16.  A patient created through POST /api/patients is reused by
    public booking: when no patient had the contact number before, a
    booking with that number creates no account, whatever its password,
    and any appointment it inserts carries the created patient's id. *)
Theorem created_patient_is_reused
    (preq : patient_request) (ep : env) (req : booking_request) (e : env) (b : backend) :
  (forall p, In p (patients b) -> p_contact_number p <> bk_contact_number req) ->
  code (answer (create_patient preq ep b)) = 201 ->
  pr_contact_number preq = bk_contact_number req ->
  (forall u ok,
     ~ In {| ev_call := CreateUser u; ev_ok := ok |}
          (calls (public_book req e (store (create_patient preq ep b))))) /\
  status (sent (public_book req e (store (create_patient preq ep b)))) <> 400 /\
  (forall a ok,
     In {| ev_call := InsertAppointment a; ev_ok := ok |}
        (calls (public_book req e (store (create_patient preq ep b)))) ->
     a_patient_id a = generated_patient_id ep).
Proof.
  intros Hnone H Hc.
  apply matching_none in Hnone.
  destruct (create_patient_created preq ep b H) as [_ [Hp _]].
  pose proof (matching_after_insert _ _ _ _ Hnone Hp Hc) as Hm.
  set (b1 := store (create_patient preq ep b)) in *. clearbody b1.
  split; [|split].
  - intros u ok. revert Hm. exec; intros Hm Hev; try discriminate Hm; find_event Hev.
  - revert Hm. exec; intros Hm; try discriminate Hm; discriminate.
  - intros a ok. revert Hm.
    exec; intros Hm Hev; try discriminate Hm; find_event Hev;
      injection Hev as <- _; injection Hm as ->; reflexivity.
Qed.

(** X17.  No uniqueness of contact numbers is kept: after two patients
    were created through POST /api/patients with the same contact number,
    a public booking with that number stores nothing and is never answered
    201 or 400, only 409 or 500. *)
Theorem twice_created_contact_blocks_booking
    (preq1 preq2 : patient_request) (ep1 ep2 : env)
    (req : booking_request) (e : env) (b : backend) :
  code (answer (create_patient preq1 ep1 b)) = 201 ->
  code (answer (create_patient preq2 ep2 (store (create_patient preq1 ep1 b)))) = 201 ->
  pr_contact_number preq1 = bk_contact_number req ->
  pr_contact_number preq2 = bk_contact_number req ->
  let b2 := store (create_patient preq2 ep2 (store (create_patient preq1 ep1 b))) in
  db_after (public_book req e b2) = b2 /\
  (status (sent (public_book req e b2)) = 409 \/
   status (sent (public_book req e b2)) = 500).
Proof.
  intros H1 H2 Hc1 Hc2 b2.
  destruct (create_patient_created preq1 ep1 b H1) as [_ [Hp1 _]].
  destruct (create_patient_created preq2 ep2 _ H2) as [_ [Hp2 _]].
  fold b2 in Hp2. cbn zeta in Hp1, Hp2.
  assert (Hlen : (2 <= List.length (matching_patients (bk_contact_number req) b2))%nat).
  { unfold matching_patients. rewrite Hp2, Hp1, !filter_app, !length_app.
    cbn [filter p_contact_number].
    rewrite Hc1, Hc2, String.eqb_refl. cbn [List.length]. lia. }
  exact (several_matching_unchanged req e b2 Hlen).
Qed.

(** X18.  An accepted public booking shows in GET /api/appointments: with
    patient ids distinct, the list then holds the booked appointment with
    the submitted contact number as its embedded patient's. *)
Theorem accepted_booking_is_listed (req : booking_request) (e : env) (b : backend) :
  status (sent (public_book req e b)) = 201 ->
  NoDup (map p_id (patients (db_after (public_book req e b)))) ->
  exists a rows name,
    json (sent (public_book req e b)) = BookedBody true a /\
    list_appointments None (db_after (public_book req e b)) =
      {| code := 200; content := Json rows |} /\
    In {| ap_appointment := a;
          ap_patients := Some (name, bk_contact_number req) |} rows.
Proof.
  intros H Hnd.
  destruct (public_book_accepted Date_parse toLocaleString req e b H)
    as [pid [Hj [Happ Hpat]]].
  cbn zeta in Hj, Happ.
  assert (Hp : exists p, In p (patients (db_after (public_book req e b))) /\
                         p_id p = pid /\
                         p_contact_number p = bk_contact_number req).
  { destruct Hpat as [[p [Hm [Hid [Hpa _]]]]|[_ [Hid [Hpa _]]]].
    - exists p. rewrite Hpa.
      assert (Hin : In p (matching_patients (bk_contact_number req) b))
        by (rewrite Hm; now left).
      apply matching_In in Hin. destruct Hin as [Hin Hc].
      repeat split; [exact Hin|now symmetry|exact Hc].
    - eexists. rewrite Hpa. split; [apply in_or_app; right; now left|].
      split; [now symmetry|reflexivity]. }
  destruct Hp as [p [Hin [Hid Hc]]].
  eexists. eexists. exists (p_name p).
  split; [exact Hj|]. split; [reflexivity|].
  rewrite <- Hc.
  match goal with
  | |- In {| ap_appointment := ?a; ap_patients := _ |} _ =>
      rewrite <- (embed_patient_found (db_after (public_book req e b)) a p Hnd Hin Hid)
  end.
  apply in_map.
  apply (Permutation_in _ (Permutation_sym (order_by_perm _ _))).
  rewrite Happ. apply in_or_app. right. now left.
Qed.

End MoreProperties.

(** *** The list routes *)

Section ListProperties.

Variable created_at : patient -> Z.
Variable Date_parse : string -> option Z.
Variable toLocaleString : Z -> string.

Local Abbreviation list_patients := (list_patients created_at).
Local Abbreviation list_appointments := (list_appointments Date_parse).
Local Abbreviation public_book := (public_book Date_parse toLocaleString).

(** X12.  GET /api/appointments lists every stored appointment exactly
    once, earliest first (each row no later than all rows after it, rows
    without a readable time last), each with the name and contact number of
    the patient its [patient_id] names, or [null] when no patient has that
    id; a failed query gives 500 with its message. *)
Theorem list_appointments_sorted_join (b : backend) :
  (exists rows,
     list_appointments None b = {| code := 200; content := Json rows |} /\
     Permutation (map ap_appointment rows) (appointments b) /\
     StronglySorted
       (fun x y => date_leb (Date_parse (a_appointment_date x))
                            (Date_parse (a_appointment_date y)) = true)
       (map ap_appointment rows) /\
     Forall (fun r =>
               match ap_patients r with
               | Some (name, contact_number) =>
                   exists p, In p (patients b) /\
                             p_id p = a_patient_id (ap_appointment r) /\
                             name = p_name p /\ contact_number = p_contact_number p
               | None =>
                   forall p, In p (patients b) ->
                             p_id p <> a_patient_id (ap_appointment r)
               end) rows) /\
  (forall f, list_appointments (Some f) b =
             {| code := 500; content := JsonError (message_of f) |}).
Proof.
  split.
  - eexists. split; [reflexivity|].
    rewrite map_map. cbn [embed_patient ap_appointment]. rewrite map_id.
    split; [apply order_by_perm|]. split.
    + apply (order_by_strongly_sorted (earlier_first Date_parse)).
      * intros u v. apply date_leb_total.
      * intros u v w. apply date_leb_trans.
    + apply Forall_forall. intros r Hr. apply in_map_iff in Hr.
      destruct Hr as [a [<- _]]. apply embed_patient_spec.
  - intros [msg|msg]; reflexivity.
Qed.

(** X13.  GET /api/patients lists every stored patient exactly once,
    newest first by [created_at]; a failed query gives 500 with its
    message. *)
Theorem list_patients_newest_first (b : backend) :
  (exists rows,
     list_patients None b = {| code := 200; content := Json rows |} /\
     Permutation rows (patients b) /\
     StronglySorted (fun x y => created_at y <= created_at x) rows) /\
  (forall f, list_patients (Some f) b =
             {| code := 500; content := JsonError (message_of f) |}).
Proof.
  split.
  - eexists. split; [reflexivity|]. split; [apply order_by_perm|].
    assert (Hs : StronglySorted (fun x y => newer_first created_at x y = true)
                   (order_by (newer_first created_at) (patients b))).
    { apply order_by_strongly_sorted; unfold newer_first.
      - intros u v. destruct (Z.leb_spec (created_at v) (created_at u));
          [now left|right]. apply Z.leb_le. lia.
      - intros u v w. rewrite !Z.leb_le. lia. }
    induction Hs as [|x l Hs IH Hall]; constructor; [exact IH|].
    eapply Forall_impl; [|exact Hall].
    intros y Hy. unfold newer_first in Hy. now apply Z.leb_le.
  - intros [msg|msg]; reflexivity.
Qed.

End ListProperties.

(** *** Facts about [Promise.all] and the count queries *)

Lemma first_some_In {A : Type} (l : list (option A)) (x : A) :
  first_some l = Some x -> In (Some x) l.
Proof.
  induction l as [|[a|] l IH]; simpl; intros H; [discriminate| |auto].
  left. exact H.
Qed.

Lemma first_some_None {A : Type} (l : list (option A)) :
  first_some l = None -> forall r, In r l -> r = None.
Proof.
  induction l as [|[a|] l IH]; simpl; intros H r Hr;
    [contradiction|discriminate|].
  destruct Hr as [<-|Hr]; [reflexivity|now apply IH].
Qed.

Lemma rejection_Some {A : Type} (p : settled A) (msg : string) :
  rejection p = Some msg -> p = Rejected msg.
Proof. destruct p; simpl; congruence. Qed.

Lemma rejection_None {A : Type} (p : settled A) :
  rejection p = None -> exists a, p = Fulfilled a.
Proof. destruct p; simpl; [eauto|discriminate]. Qed.

(** [Promise.all] fulfils with the four values, or rejects with the reason
    of one of the promises that rejected. *)
Lemma Promise_all4_cases {A : Type} (order : list nat) (p1 p2 p3 p4 : settled A) :
  (exists a b c d,
     p1 = Fulfilled a /\ p2 = Fulfilled b /\ p3 = Fulfilled c /\ p4 = Fulfilled d /\
     Promise_all4 order p1 p2 p3 p4 = Fulfilled (a, b, c, d)) \/
  (exists msg,
     Promise_all4 order p1 p2 p3 p4 = Rejected msg /\
     In (Rejected msg) [p1; p2; p3; p4]).
Proof.
  unfold Promise_all4.
  set (rs := [rejection p1; rejection p2; rejection p3; rejection p4]).
  destruct (first_some (map (fun i => nth i rs None) order ++ rs)) as [msg|] eqn:Hf.
  - right. exists msg. split; [reflexivity|].
    apply first_some_In in Hf.
    assert (Hin : In (Some msg) rs).
    { apply in_app_or in Hf. destruct Hf as [Hf|Hf]; [|exact Hf].
      apply in_map_iff in Hf. destruct Hf as [i [Hi _]].
      destruct (nth_in_or_default i rs None) as [H|H]; congruence. }
    subst rs. simpl in Hin.
    destruct Hin as [H|[H|[H|[H|[]]]]]; apply rejection_Some in H; subst; simpl; auto.
  - left.
    assert (Hall : forall r, In r rs -> r = None).
    { intros r Hr. apply (first_some_None _ Hf). apply in_or_app. now right. }
    destruct (rejection_None p1) as [a ->]; [apply Hall; subst rs; simpl; auto|].
    destruct (rejection_None p2) as [b ->]; [apply Hall; subst rs; simpl; auto|].
    destruct (rejection_None p3) as [c ->]; [apply Hall; subst rs; simpl; auto|].
    destruct (rejection_None p4) as [d ->]; [apply Hall; subst rs; simpl; auto 6|].
    exists a, b, c, d. repeat split.
Qed.

Lemma count_query_rejected (ans : count_answer) (n : nat) (msg : string) :
  count_query ans n = Rejected msg <-> ans = Fails (Rejects msg).
Proof.
  destruct ans as [| |[m|m]]; simpl; split; intros H;
    try discriminate H; congruence.
Qed.

Lemma count_query_fulfilled (ans : count_answer) (n : nat) (r : count_reply) :
  count_query ans n = Fulfilled r -> or_zero (count r) = shown ans n.
Proof.
  destruct ans as [| |[m|m]]; simpl; intros H; try discriminate H;
    injection H as <-; simpl; try reflexivity.
  apply (or_zero_count (Some (Z.of_nat n))).
Qed.

Section DashboardProperties.

Variable Date_parse : string -> option Z.
Variable toLocaleString : Z -> string.

Ltac unfold_dashboard := unfold dashboard_stats.
Ltac unfold_today := unfold count_today, today_rows.

Local Abbreviation dashboard_stats := (dashboard_stats Date_parse).
Local Abbreviation count_today := (count_today Date_parse).
Local Abbreviation today_rows := (today_rows Date_parse).
Local Abbreviation public_book := (public_book Date_parse toLocaleString).

Lemma count_today_rejected (ans : count_answer) (t : Z) (b : backend) (msg : string) :
  count_today ans (iso_date_part t) (iso_date_part (t + ms_per_day)) b = Rejected msg <->
  ans = Fails (Rejects msg).
Proof.
  unfold_today.
  destruct (Date_parse (iso_date_part t));
    [destruct (Date_parse (iso_date_part (t + ms_per_day)))|];
    try apply count_query_rejected;
    destruct ans as [| |[m|m]]; simpl; split; intros H;
    try discriminate H; congruence.
Qed.

Lemma count_today_fulfilled (ans : count_answer) (t : Z) (b : backend) (r : count_reply) :
  count_today ans (iso_date_part t) (iso_date_part (t + ms_per_day)) b = Fulfilled r ->
  or_zero (count r) = shown ans (today_rows t b).
Proof.
  unfold_today.
  destruct (Date_parse (iso_date_part t));
    [destruct (Date_parse (iso_date_part (t + ms_per_day)))|];
    try apply count_query_fulfilled;
    destruct ans as [| |[m|m]]; simpl; intros H; try discriminate H;
    injection H as <-; reflexivity.
Qed.

Lemma dashboard_stats_cases (se : stats_env) (b : backend) :
  ((forall msg, ~ In (Fails (Rejects msg))
                    [patients_answer se; doctors_answer se;
                     appointments_answer se; today_answer se]) /\
   dashboard_stats se b =
     {| status := 200;
        json := StatsBody (shown (patients_answer se) (List.length (patients b)))
                          (shown (doctors_answer se) (List.length (doctors b)))
                          (shown (appointments_answer se) (List.length (appointments b)))
                          (shown (today_answer se) (today_rows (now se) b)) |}) \/
  (exists msg,
     dashboard_stats se b = {| status := 500; json := ErrorBody msg |} /\
     In (Fails (Rejects msg))
        [patients_answer se; doctors_answer se; appointments_answer se; today_answer se]).
Proof.
  unfold_dashboard.
  match goal with
  | |- context [Promise_all4 ?o ?p1 ?p2 ?p3 ?p4] =>
      destruct (Promise_all4_cases o p1 p2 p3 p4)
        as [[r1 [r2 [r3 [r4 [H1 [H2 [H3 [H4 ->]]]]]]]]|[msg [-> Hin]]]
  end.
  - left. split.
    + intros msg Hin. simpl in Hin.
      destruct Hin as [H|[H|[H|[H|[]]]]].
      * apply (proj2 (count_query_rejected _ (List.length (patients b)) _)) in H.
        congruence.
      * apply (proj2 (count_query_rejected _ (List.length (doctors b)) _)) in H.
        congruence.
      * apply (proj2 (count_query_rejected _ (List.length (appointments b)) _)) in H.
        congruence.
      * apply (proj2 (count_today_rejected _ (now se) b _)) in H. congruence.
    + rewrite (count_query_fulfilled _ _ _ H1), (count_query_fulfilled _ _ _ H2),
        (count_query_fulfilled _ _ _ H3), (count_today_fulfilled _ _ _ _ H4).
      reflexivity.
  - right. exists msg. split; [reflexivity|].
    simpl in Hin. simpl.
    destruct Hin as [H|[H|[H|[H|[]]]]].
    + apply count_query_rejected in H. auto.
    + apply count_query_rejected in H. auto.
    + apply count_query_rejected in H. auto.
    + apply count_today_rejected in H. auto.
Qed.

Lemma today_rows_at_most (t : Z) (b : backend) :
  (today_rows t b <= List.length (appointments b))%nat.
Proof.
  unfold_today.
  destruct (Date_parse (iso_date_part t));
    [destruct (Date_parse (iso_date_part (t + ms_per_day)))|]; try lia.
  apply filter_length_le.
Qed.

Lemma today_rows_one_more (t : Z) (b b' : backend) (a : appointment) :
  appointments b' = (appointments b ++ [a])%list ->
  (today_rows t b <= today_rows t b' <= today_rows t b + 1)%nat.
Proof.
  intros H. unfold_today. rewrite H.
  destruct (Date_parse (iso_date_part t));
    [destruct (Date_parse (iso_date_part (t + ms_per_day)))|]; try lia.
  rewrite filter_app, length_app. simpl.
  match goal with |- context [if ?c then _ else _] => destruct c end; simpl; lia.
Qed.

Lemma shown_monotone (ans : count_answer) (n m : nat) :
  (n <= m <= n + 1)%nat -> shown ans n <= shown ans m <= shown ans n + 1.
Proof. destruct ans; simpl; lia. Qed.


(** X20.  On a 200 answer with the appointments count answered exactly,
    [appointmentsToday] never exceeds [totalAppointments], and no number is
    negative. *)
Theorem dashboard_today_at_most_total (se : stats_env) (b : backend) :
  appointments_answer se = Exact ->
  status (dashboard_stats se b) = 200 ->
  exists p d a t,
    json (dashboard_stats se b) = StatsBody p d a t /\
    0 <= t <= a /\ 0 <= p /\ 0 <= d.
Proof.
  intros Ha Hs.
  destruct (dashboard_stats_cases se b) as [[_ H]|[msg [H _]]];
    rewrite H in *; [|discriminate Hs].
  do 4 eexists. split; [reflexivity|]. rewrite Ha. cbn [shown].
  pose proof (today_rows_at_most (now se) b).
  destruct (today_answer se), (patients_answer se), (doctors_answer se);
    cbn [shown]; lia.
Qed.

(** X21.  An accepted public booking moves the dashboard by one
    appointment: with the doctors and appointments counts answered exactly,
    [totalAppointments] goes up by exactly 1, [totalDoctors] stays, and
    [totalPatients] and [appointmentsToday] stay or go up by 1. *)
Theorem dashboard_after_accepted_booking
    (req : booking_request) (e : env) (b : backend) (se : stats_env) :
  status (sent (public_book req e b)) = 201 ->
  appointments_answer se = Exact ->
  doctors_answer se = Exact ->
  status (dashboard_stats se b) = 200 ->
  exists p d a t p' t',
    json (dashboard_stats se b) = StatsBody p d a t /\
    dashboard_stats se (db_after (public_book req e b)) =
      {| status := 200; json := StatsBody p' d (a + 1) t' |} /\
    p <= p' <= p + 1 /\ t <= t' <= t + 1.
Proof.
  intros H Ha Hd Hs.
  destruct (public_book_accepted Date_parse toLocaleString req e b H)
    as [pid [_ [Happ Hpat]]].
  cbn zeta in Happ.
  pose proof (public_book_doctors Date_parse toLocaleString req e b) as Hdoc.
  assert (Hp : (List.length (patients b)
                <= List.length (patients (db_after (public_book req e b)))
                <= List.length (patients b) + 1)%nat).
  { destruct Hpat as [[p [_ [_ [-> _]]]]|[_ [_ [-> _]]]];
      [|rewrite length_app; simpl]; lia. }
  pose proof (today_rows_one_more (now se) b _ _ Happ) as Ht.
  destruct (dashboard_stats_cases se b) as [[Hno H0]|[msg [H0 _]]];
    rewrite H0 in Hs; [|discriminate Hs].
  destruct (dashboard_stats_cases se (db_after (public_book req e b)))
    as [[_ H1]|[msg [_ Hin]]]; [|exfalso; exact (Hno msg Hin)].
  rewrite Ha, Hd in H0, H1. cbn [shown] in H0, H1.
  rewrite Hdoc, Happ, length_app, Nat2Z.inj_add in H1. cbn [List.length] in H1.
  do 6 eexists. split; [rewrite H0; reflexivity|].
  split; [exact H1|].
  split; apply shown_monotone; assumption.
Qed.

End DashboardProperties.

(* ================================================================== *)
(** ** Instances of the further properties *)
(* ================================================================== *)

Lemma public_book_invalid_date_witness :
  let req := scenario_request "tomorrow at ten" in
  (forall T, new_Date iso_utc_parse (bk_appointment_date req) = Some T ->
             ~ window_valid T) /\
  public_book iso_utc_parse date_only_locale req (working true None 10 11 12)
    empty_backend =
    {| sent := {| status := 500; json := ErrorBody "Invalid time value" |};
       db_after := empty_backend; calls := [] |}.
Proof.
  cbv zeta.
  assert (H : forall T,
             new_Date iso_utc_parse
               (bk_appointment_date (scenario_request "tomorrow at ten")) = Some T ->
             ~ window_valid T).
  { intros T HT. vm_compute in HT. discriminate HT. }
  split; [exact H|].
  exact (public_book_invalid_date iso_utc_parse date_only_locale _ _ _ H).
Defined.

Lemma public_book_keeps_account_on_failure_witness :
  let req := scenario_request "2024-01-01T10:00:00Z" in
  let e := with_faults None None (Some (RepliesError "violates foreign key"))
             (working true None 10 1 12) in
  let o := public_book iso_utc_parse date_only_locale req e empty_backend in
  In {| ev_call := CreateUser account_A; ev_ok := true |} (calls o) /\
  status (sent o) <> 201 /\
  status (sent o) = 500 /\
  auth_users (db_after o) = [account_A] /\
  appointments (db_after o) = [] /\
  patients (db_after o) = [patient_A].
Proof.
  cbv zeta.
  assert (Hin : In {| ev_call := CreateUser account_A; ev_ok := true |}
                  (calls (public_book iso_utc_parse date_only_locale
                            (scenario_request "2024-01-01T10:00:00Z")
                            (with_faults None None
                               (Some (RepliesError "violates foreign key"))
                               (working true None 10 1 12)) empty_backend))).
  { vm_compute. do 2 right. left. reflexivity. }
  assert (Hst : status (sent (public_book iso_utc_parse date_only_locale
                            (scenario_request "2024-01-01T10:00:00Z")
                            (with_faults None None
                               (Some (RepliesError "violates foreign key"))
                               (working true None 10 1 12)) empty_backend)) <> 201).
  { vm_compute. discriminate. }
  split; [exact Hin|]. split; [exact Hst|].
  destruct (public_book_keeps_account_on_failure iso_utc_parse date_only_locale
              _ _ _ _ Hin Hst) as [H1 [H2 [H3 H4]]].
  split; [exact H1|]. split; [exact H2|]. split; [exact H3|].
  exact (proj1 H4).
Defined.

Lemma public_book_account_failure_witness :
  let req := scenario_request "2024-01-01T10:00:00Z" in
  let e := with_faults (Some (RepliesError "User already registered")) None None
             (working true None 10 11 12) in
  let o := public_book iso_utc_parse date_only_locale req e empty_backend in
  In {| ev_call := CreateUser account_A; ev_ok := false |} (calls o) /\
  status (sent o) = 500 /\
  db_after o = empty_backend /\
  json (sent o) =
    ErrorBody "Failed to create user account: User already registered".
Proof.
  cbv zeta.
  assert (Hin : In {| ev_call := CreateUser account_A; ev_ok := false |}
                  (calls (public_book iso_utc_parse date_only_locale
                            (scenario_request "2024-01-01T10:00:00Z")
                            (with_faults (Some (RepliesError "User already registered"))
                               None None (working true None 10 11 12)) empty_backend))).
  { vm_compute. do 2 right. left. reflexivity. }
  split; [exact Hin|].
  destruct (public_book_account_failure iso_utc_parse date_only_locale
              _ _ _ _ Hin) as [H1 [H2 [_ H4]]].
  split; [exact H1|]. split; [exact H2|].
  exact (H4 "User already registered" eq_refl).
Defined.

Lemma email_only_after_insert_witness :
  let sreq := staff_request "2024-01-01T10:00:00Z" in
  let req := scenario_request "2024-01-01T10:00:00Z" in
  let e := working true None 10 11 12 in
  let o := public_book iso_utc_parse date_only_locale req e empty_backend in
  let m := booking_email iso_utc_parse date_only_locale "A" "Dr Smith" "GP"
             "2024-01-01T10:00:00Z" in
  (o = create_appointment iso_utc_parse date_only_locale sreq e empty_backend \/
   o = public_book iso_utc_parse date_only_locale req e empty_backend) /\
  In {| ev_call := EmailsSend m; ev_ok := true |} (calls o) /\
  RESEND_API_KEY e = true /\
  status (sent o) = 201.
Proof.
  cbv zeta.
  assert (Hin : In {| ev_call := EmailsSend
                        (booking_email iso_utc_parse date_only_locale "A" "Dr Smith"
                           "GP" "2024-01-01T10:00:00Z");
                      ev_ok := true |}
                  (calls (public_book iso_utc_parse date_only_locale
                            (scenario_request "2024-01-01T10:00:00Z")
                            (working true None 10 11 12) empty_backend))).
  { do 5 right. left. reflexivity. }
  split; [right; reflexivity|]. split; [exact Hin|].
  destruct (email_only_after_insert iso_utc_parse date_only_locale
              (staff_request "2024-01-01T10:00:00Z")
              (scenario_request "2024-01-01T10:00:00Z")
              (working true None 10 11 12) empty_backend _ _ _
              (or_intror eq_refl) Hin) as [H1 [H2 _]].
  split; [exact H1|exact H2].
Defined.

Lemma public_book_nonstring_password_witness :
  let req := numeric_password_request "2024-01-01T12:00:00Z" in
  let b := booked [smith_at 1 "2024-01-01T10:00:00Z"] in
  let o := public_book iso_utc_parse date_only_locale req (working true None 10 11 12) b in
  matching_patients (bk_contact_number req) b = [] /\
  In {| ev_call := SelectPatient (bk_contact_number req); ev_ok := true |} (calls o) /\
  (bk_password req = JSbool true \/
   (exists n, n <> 0 /\ bk_password req = JSnumber n)) /\
  status (sent o) <> 400.
Proof.
  cbv zeta.
  assert (Hin : In {| ev_call := SelectPatient
                        (bk_contact_number (numeric_password_request "2024-01-01T12:00:00Z"));
                      ev_ok := true |}
                  (calls (public_book iso_utc_parse date_only_locale
                            (numeric_password_request "2024-01-01T12:00:00Z")
                            (working true None 10 11 12)
                            (booked [smith_at 1 "2024-01-01T10:00:00Z"])))).
  { vm_compute. right. left. reflexivity. }
  assert (Hpw : bk_password (numeric_password_request "2024-01-01T12:00:00Z") = JSbool true \/
                (exists n, n <> 0 /\
                   bk_password (numeric_password_request "2024-01-01T12:00:00Z") = JSnumber n)).
  { right. exists 123456. split; [discriminate|reflexivity]. }
  split; [reflexivity|]. split; [exact Hin|]. split; [exact Hpw|].
  exact (proj1 (public_book_nonstring_password iso_utc_parse date_only_locale
                  (numeric_password_request "2024-01-01T12:00:00Z")
                  (working true None 10 11 12)
                  (booked [smith_at 1 "2024-01-01T10:00:00Z"]) eq_refl Hin Hpw)).
Defined.

Lemma booked_slot_blocks_witness :
  let req1 := scenario_request "2024-01-01T10:00:00Z" in
  let req2 := newcomer_request "2024-01-01T10:20:00Z" in
  let e := working true None 10 11 12 in
  let o1 := public_book iso_utc_parse date_only_locale req1 e empty_backend in
  status (sent o1) = 201 /\
  bk_doctor_name req2 = bk_doctor_name req1 /\
  bk_doctor_specialty req2 = bk_doctor_specialty req1 /\
  iso_utc_parse (bk_appointment_date req1) = Some 1704103200000 /\
  new_Date iso_utc_parse (bk_appointment_date req2) = Some 1704104400000 /\
  window_valid 1704104400000 /\
  Z.abs (1704104400000 - 1704103200000) <= 30 * 60000 /\
  conflict_fault e = None /\
  status (sent (public_book iso_utc_parse date_only_locale req2 e (db_after o1))) = 409.
Proof.
  cbv zeta.
  assert (Hw : window_valid 1704104400000) by (unfold window_valid; lia).
  assert (Hn : Z.abs (1704104400000 - 1704103200000) <= 30 * 60000) by lia.
  repeat (split; [first [reflexivity | exact Hw | exact Hn]|]).
  exact (proj1 (booked_slot_blocks iso_utc_parse date_only_locale
                  (scenario_request "2024-01-01T10:00:00Z")
                  (newcomer_request "2024-01-01T10:20:00Z")
                  (working true None 10 11 12) (working true None 10 11 12)
                  empty_backend 1704103200000 1704104400000
                  eq_refl eq_refl eq_refl eq_refl eq_refl Hw Hn eq_refl)).
Defined.

Lemma staff_appointment_blocks_public_witness :
  let sreq := staff_request "2024-01-01T10:00:00Z" in
  let req := newcomer_request "2024-01-01T10:20:00Z" in
  let e := working true None 10 11 12 in
  let o1 := create_appointment iso_utc_parse date_only_locale sreq e empty_backend in
  status (sent o1) = 201 /\
  ar_doctor_name sreq =
    formatted_doctor (bk_doctor_name req) (bk_doctor_specialty req) /\
  iso_utc_parse (ar_appointment_date sreq) = Some 1704103200000 /\
  new_Date iso_utc_parse (bk_appointment_date req) = Some 1704104400000 /\
  window_valid 1704104400000 /\
  Z.abs (1704104400000 - 1704103200000) <= 30 * 60000 /\
  conflict_fault e = None /\
  status (sent (public_book iso_utc_parse date_only_locale req e (db_after o1))) = 409.
Proof.
  cbv zeta.
  assert (Hw : window_valid 1704104400000) by (unfold window_valid; lia).
  assert (Hn : Z.abs (1704104400000 - 1704103200000) <= 30 * 60000) by lia.
  repeat (split; [first [reflexivity | exact Hw | exact Hn]|]).
  exact (proj1 (staff_appointment_blocks_public iso_utc_parse date_only_locale
                  (staff_request "2024-01-01T10:00:00Z")
                  (newcomer_request "2024-01-01T10:20:00Z")
                  (working true None 10 11 12) (working true None 10 11 12)
                  empty_backend 1704103200000 1704104400000
                  eq_refl eq_refl eq_refl eq_refl Hw Hn eq_refl)).
Defined.

Lemma duplicate_contact_blocks_booking_witness :
  let req := scenario_request "2024-01-01T10:00:00Z" in
  let o := public_book iso_utc_parse date_only_locale req
             (working true None 10 11 12) twice_stored in
  (2 <= List.length (matching_patients (bk_contact_number req) twice_stored))%nat /\
  db_after o = twice_stored /\
  sent o =
    {| status := 500;
       json := ErrorBody "JSON object requested, multiple (or no) rows returned" |}.
Proof.
  cbv zeta.
  assert (H2 : (2 <= List.length
                   (matching_patients
                      (bk_contact_number (scenario_request "2024-01-01T10:00:00Z"))
                      twice_stored))%nat)
    by (vm_compute; lia).
  split; [exact H2|].
  destruct (duplicate_contact_blocks_booking iso_utc_parse date_only_locale
              (scenario_request "2024-01-01T10:00:00Z")
              (working true None 10 11 12) twice_stored H2) as [H [_ _]].
  split; [exact H|reflexivity].
Defined.

Lemma created_patient_is_listed_witness :
  let s := create_patient patient_A_request (working true None 10 1 12) empty_backend in
  code (answer s) = 201 /\
  content (answer s) = Json patient_A /\
  exists rows,
    list_patients created_in_id_order None (store s) =
      {| code := 200; content := Json rows |} /\
    Permutation rows [patient_A].
Proof.
  cbv zeta. split; [reflexivity|].
  exact (created_patient_is_listed created_in_id_order patient_A_request
           (working true None 10 1 12) empty_backend eq_refl).
Defined.

Lemma created_patient_is_reused_witness :
  let s := create_patient patient_A_request (working true None 10 1 12) empty_backend in
  let req := scenario_request "2024-01-01T10:00:00Z" in
  let o := public_book iso_utc_parse date_only_locale req
             (working true None 20 21 22) (store s) in
  (forall p, In p (patients empty_backend) ->
             p_contact_number p <> bk_contact_number req) /\
  code (answer s) = 201 /\
  pr_contact_number patient_A_request = bk_contact_number req /\
  status (sent o) <> 400.
Proof.
  cbv zeta.
  assert (H : forall p, In p (patients empty_backend) ->
                        p_contact_number p <>
                        bk_contact_number (scenario_request "2024-01-01T10:00:00Z"))
    by (intros p []).
  split; [exact H|]. split; [reflexivity|]. split; [reflexivity|].
  exact (proj1 (proj2 (created_patient_is_reused iso_utc_parse date_only_locale
                         patient_A_request (working true None 10 1 12)
                         (scenario_request "2024-01-01T10:00:00Z")
                         (working true None 20 21 22) empty_backend
                         H eq_refl eq_refl))).
Defined.

Lemma twice_created_contact_blocks_booking_witness :
  let e1 := working true None 10 1 12 in
  let e2 := working true None 10 2 12 in
  let req := scenario_request "2024-01-01T10:00:00Z" in
  let s1 := create_patient patient_A_request e1 empty_backend in
  let s2 := create_patient patient_A_request e2 (store s1) in
  code (answer s1) = 201 /\
  code (answer s2) = 201 /\
  pr_contact_number patient_A_request = bk_contact_number req /\
  db_after (public_book iso_utc_parse date_only_locale req
              (working true None 20 21 22) (store s2)) = store s2.
Proof.
  cbv zeta. repeat (split; [reflexivity|]).
  exact (proj1 (twice_created_contact_blocks_booking iso_utc_parse date_only_locale
                  patient_A_request patient_A_request
                  (working true None 10 1 12) (working true None 10 2 12)
                  (scenario_request "2024-01-01T10:00:00Z")
                  (working true None 20 21 22) empty_backend
                  eq_refl eq_refl eq_refl eq_refl)).
Defined.

Lemma accepted_booking_is_listed_witness :
  let req := scenario_request "2024-01-01T10:00:00Z" in
  let o := public_book iso_utc_parse date_only_locale req
             (working true None 10 11 12) empty_backend in
  status (sent o) = 201 /\
  NoDup (map p_id (patients (db_after o))) /\
  exists a rows name,
    json (sent o) = BookedBody true a /\
    list_appointments iso_utc_parse None (db_after o) =
      {| code := 200; content := Json rows |} /\
    In {| ap_appointment := a;
          ap_patients := Some (name, bk_contact_number req) |} rows.
Proof.
  cbv zeta.
  assert (Hnd : NoDup (map p_id (patients (db_after
                  (public_book iso_utc_parse date_only_locale
                     (scenario_request "2024-01-01T10:00:00Z")
                     (working true None 10 11 12) empty_backend))))).
  { vm_compute. constructor; [intros []|constructor]. }
  split; [reflexivity|]. split; [exact Hnd|].
  exact (accepted_booking_is_listed iso_utc_parse date_only_locale
           (scenario_request "2024-01-01T10:00:00Z")
           (working true None 10 11 12) empty_backend eq_refl Hnd).
Defined.

Lemma dashboard_today_at_most_total_witness :
  let se := stats_at_ten Exact Exact in
  let b := booked [smith_at 1 "2024-01-01T10:00:00Z"; smith_at 2 "2024-01-02T10:00:00Z"] in
  appointments_answer se = Exact /\
  status (dashboard_stats iso_utc_parse se b) = 200 /\
  exists p d a t,
    json (dashboard_stats iso_utc_parse se b) = StatsBody p d a t /\
    0 <= t <= a /\ 0 <= p /\ 0 <= d.
Proof.
  cbv zeta. split; [reflexivity|]. split; [reflexivity|].
  exact (dashboard_today_at_most_total iso_utc_parse (stats_at_ten Exact Exact)
           (booked [smith_at 1 "2024-01-01T10:00:00Z"; smith_at 2 "2024-01-02T10:00:00Z"])
           eq_refl eq_refl).
Defined.

Lemma dashboard_after_accepted_booking_witness :
  let req := scenario_request "2024-01-01T11:00:00Z" in
  let e := working true None 10 11 12 in
  let b := booked [smith_at 1 "2024-01-01T10:00:00Z"] in
  let se := stats_at_ten Exact Exact in
  let o := public_book iso_utc_parse date_only_locale req e b in
  status (sent o) = 201 /\
  appointments_answer se = Exact /\
  doctors_answer se = Exact /\
  status (dashboard_stats iso_utc_parse se b) = 200 /\
  exists p d a t p' t',
    json (dashboard_stats iso_utc_parse se b) = StatsBody p d a t /\
    dashboard_stats iso_utc_parse se (db_after o) =
      {| status := 200; json := StatsBody p' d (a + 1) t' |} /\
    p <= p' <= p + 1 /\ t <= t' <= t + 1.
Proof.
  cbv zeta. repeat (split; [reflexivity|]).
  exact (dashboard_after_accepted_booking iso_utc_parse date_only_locale
           (scenario_request "2024-01-01T11:00:00Z") (working true None 10 11 12)
           (booked [smith_at 1 "2024-01-01T10:00:00Z"]) (stats_at_ten Exact Exact)
           eq_refl eq_refl eq_refl eq_refl).
Defined.
